(** * CoScale Salt state: sending an event to the CoScale API

    A shallow embedding of [coscale.py]: the three request helpers
    [_login], [_eventpush], [_eventdatapush] and the orchestrator [event],
    written in a small state-and-exception monad.  The HTTP server, the JSON
    decoder and Python's [repr] of containers are parameters of the
    development; everything else follows the source line by line.

    Conventions: a Python [str] is a Rocq [string]; [str(x)] and the
    messages of exceptions are those of Python 3; a call of
    [requests.post] either yields a response or raises, and the 1 second
    timeout is one of the ways it raises. *)

From Stdlib Require Import ZArith List String Ascii Bool Lia DecimalString.
Import ListNotations.

Set Warnings "-register-all".

Open Scope string_scope.
Open Scope Z_scope.

(** ** Python values *)

(** The values [json.loads] can produce, which are also the values the module
    passes around as token, event id and timestamp.  A float is kept by its
    [repr]; a dict is kept as its items in insertion order. *)
Inductive pyvalue : Type :=
| PyNone
| PyBool (b : bool)
| PyInt (z : Z)
| PyFloat (repr : string)
| PyStr (s : string)
| PyList (items : list pyvalue)
| PyDict (items : list (string * pyvalue)).

(** The exceptions the module can meet.  [RequestException] stands for what
    [requests.post] raises on a timeout or a connection failure. *)
Inductive exn : Type :=
| AttributeError (msg : string)
| ValueError (msg : string)
| KeyError (key : string)
| TypeError (msg : string)
| RequestException (msg : string).

Fixpoint dict_get (key : string) (items : list (string * pyvalue)) : option pyvalue :=
  match items with
  | [] => None
  | (k, v) :: rest => if String.eqb k key then Some v else dict_get key rest
  end.

(** [obj[key]] for a string key: only a dict can be indexed by one. *)
Definition getitem (obj : pyvalue) (key : string) : exn + pyvalue :=
  match obj with
  | PyDict items =>
      match dict_get key items with
      | Some v => inr v
      | None => inl (KeyError key)
      end
  | PyStr _ => inl (TypeError "string indices must be integers")
  | PyList _ => inl (TypeError "list indices must be integers or slices, not str")
  | _ => inl (TypeError "object is not subscriptable")
  end.

Definition str_of_int (z : Z) : string := NilZero.string_of_int (Z.to_int z).

(** ** HTTP requests and responses *)

Record Request : Type := mkRequest {
  req_url : string;
  req_data : list (string * pyvalue);
  req_headers : list (string * pyvalue)
}.

Record Response : Type := mkResponse {
  status_code : Z;
  text : string
}.

Inductive post_outcome : Type :=
| PostOk (r : Response)
| PostRaise (e : exn).

(** ** The state record returned to Salt *)

(** [ret['comment']] holds a string on the ordinary paths and the caught
    [AttributeError] instance on the exception path. *)
Inductive comment_value : Type :=
| CommentStr (s : string)
| CommentExc (msg : string).

(** [str(ret['comment'])]: an exception built from one message prints as
    that message. *)
Definition comment_str (c : comment_value) : string :=
  match c with
  | CommentStr s => s
  | CommentExc msg => msg
  end.

Record Ret : Type := mkRet {
  name : string;
  changes : list (string * pyvalue);
  result : bool;
  comment : comment_value
}.

Definition with_comment (c : comment_value) (r : Ret) : Ret :=
  {| name := name r; changes := changes r; result := result r; comment := c |}.

Definition with_result (b : bool) (r : Ret) : Ret :=
  {| name := name r; changes := changes r; result := b; comment := comment r |}.

Inductive outcome (A : Type) : Type :=
| Ok (a : A)
| Raise (e : exn).
Arguments Ok {A} a.
Arguments Raise {A} e.

Section CoScale.

(** The server side: whatever answers [requests.post(url, data=...,
    headers=..., timeout=1)], with its own state. *)
Variable World : Type.
Variable requests_post : Request -> World -> post_outcome * World.

(** [json.loads]; [None] when it raises [ValueError]. *)
Variable json_loads : string -> option pyvalue.

(** [str] of a list or a dict, which is their [repr]. *)
Variable py_repr : pyvalue -> string.

Definition py_str (v : pyvalue) : string :=
  match v with
  | PyNone => "None"
  | PyBool true => "True"
  | PyBool false => "False"
  | PyInt z => str_of_int z
  | PyFloat repr => repr
  | PyStr s => s
  | PyList _ | PyDict _ => py_repr v
  end.

(** ** The monad: server state, the requests sent so far, and the [ret]
    dict that [event] mutates. *)

Record State : Type := mkState {
  world : World;
  calls : list Request;
  ret : Ret
}.

Definition M (A : Type) : Type := State -> outcome A * State.

Definition pure {A} (a : A) : M A := fun st => (Ok a, st).

Definition raise {A} (e : exn) : M A := fun st => (Raise e, st).

Definition bind {A B} (m : M A) (k : A -> M B) : M B :=
  fun st =>
    match m st with
    | (Ok a, st') => k a st'
    | (Raise e, st') => (Raise e, st')
    end.

Notation "x <- m ;; k" := (bind m (fun x => k))
  (at level 61, m at next level, right associativity).
Notation "m ;;; k" := (bind m (fun _ => k))
  (at level 61, right associativity).

Definition lift_exn {A} (r : exn + A) : M A :=
  match r with
  | inl e => raise e
  | inr a => pure a
  end.

(** [try: body except AttributeError as err: handler(err)]; any other
    exception goes on to the caller. *)
Definition try_except_AttributeError {A} (body : M A) (handler : string -> M A) : M A :=
  fun st =>
    match body st with
    | (Raise (AttributeError msg), st') => handler msg st'
    | other => other
    end.

(** The state once [rq] has gone out and the server has moved to [w']. *)
Definition sent (st : State) (rq : Request) (w' : World) : State :=
  {| world := w'; calls := (calls st ++ [rq])%list; ret := ret st |}.

Definition post (rq : Request) : M Response :=
  fun st =>
    let (o, w') := requests_post rq (world st) in
    match o with
    | PostOk r => (Ok r, sent st rq w')
    | PostRaise e => (Raise e, sent st rq w')
    end.

Definition loads (s : string) : M pyvalue :=
  match json_loads s with
  | Some v => pure v
  | None => raise (ValueError "No JSON object could be decoded")
  end.

Definition set_comment (c : comment_value) : M unit :=
  fun st => (Ok tt, {| world := world st; calls := calls st; ret := with_comment c (ret st) |}).

Definition set_result (b : bool) : M unit :=
  fun st => (Ok tt, {| world := world st; calls := calls st; ret := with_result b (ret st) |}).

Definition return_ret : M Ret := fun st => (Ok (ret st), st).

(** [err.status_code] and [err.text], where [err] may be [None]. *)
Definition attr_status_code (err : option Response) : M Z :=
  match err with
  | Some r => pure (status_code r)
  | None => raise (AttributeError "'NoneType' object has no attribute 'status_code'")
  end.

Definition attr_text (err : option Response) : M string :=
  match err with
  | Some r => pure (text r)
  | None => raise (AttributeError "'NoneType' object has no attribute 'text'")
  end.

(** [x in l] for an int [x] and a list of ints and [None]s. *)
Definition py_in (x : Z) (l : list (option Z)) : bool :=
  existsb (fun y => match y with Some n => x =? n | None => false end) l.

(** ** The requests *)

Definition login_request (accesstoken url : string) : Request :=
  {| req_url := url;
     req_data := [("accessToken", PyStr accesstoken)];
     req_headers := [] |}.

Definition eventpush_request (name : string) (token : pyvalue) (url : string) : Request :=
  {| req_url := url;
     req_data := [("name", PyStr name); ("description", PyStr "");
                  ("type", PyStr ""); ("source", PyStr "SaltStack")];
     req_headers := [("HTTPAuthorization", token)] |}.

Definition eventdatapush_request (message : string) (timestamp token : pyvalue)
    (url : string) : Request :=
  {| req_url := url;
     req_data := [("message", PyStr message); ("timestamp", timestamp);
                  ("subject", PyStr "a")];
     req_headers := [("HTTPAuthorization", token)] |}.

(** ** The three helpers *)

Definition _login (accesstoken url : string) : M pyvalue :=
  req <- post (login_request accesstoken url) ;;
  if negb (status_code req =? 200) then raise (AttributeError (text req))
  else
    response <- loads (text req) ;;
    lift_exn (getitem response "token").

Definition _eventpush (name : string) (token : pyvalue) (url : string)
    : M (option Response * pyvalue) :=
  req <- post (eventpush_request name token url) ;;
  if (status_code req =? 409) || (status_code req =? 200) then
    response <- loads (text req) ;;
    id <- lift_exn (getitem response "id") ;;
    pure (None, id)
  else pure (Some req, PyNone).

Definition _eventdatapush (message : string) (timestamp token : pyvalue) (url : string)
    : M (option Response) :=
  req <- post (eventdatapush_request message timestamp token url) ;;
  if negb (status_code req =? 200) then pure (Some req)
  else pure None.

(** ** The orchestrator *)

Definition default_timestamp : pyvalue := PyInt 0.

Definition timestamp_or_default (timestamp : option pyvalue) : pyvalue :=
  match timestamp with
  | Some t => t
  | None => default_timestamp
  end.

Definition api_url (baseurl appid : string) : string :=
  baseurl ++ "api/v1/app/" ++ appid ++ "/".

(** The body of the [try] block, with [baseurl] already rebuilt. *)
Definition event_try (baseurl accesstoken event_name event_message : string)
    (timestamp : pyvalue) : M Ret :=
  let finish : M Ret :=
    set_result true ;;;
    set_comment (CommentStr ("Sent event: " ++ event_name)) ;;;
    return_ret in
  let push_data (token event_id : pyvalue) : M Ret :=
    let url := baseurl ++ "events/" ++ py_str event_id ++ "/data/" in
    err <- _eventdatapush event_message timestamp token url ;;
    match err with
    | Some _ =>
        sc <- attr_status_code err ;;
        err <- (if sc =? 401 then
                  token <- _login accesstoken (baseurl ++ "login/") ;;
                  _eventdatapush event_message timestamp token url
                else pure err) ;;
        sc <- attr_status_code err ;;
        if negb (py_in sc [Some 401; None]) then
          body <- attr_text err ;;
          set_comment (CommentStr body) ;;;
          return_ret
        else finish
    | None => finish
    end in
  token <- _login accesstoken (baseurl ++ "login/") ;;
  pushed <- _eventpush event_name token (baseurl ++ "events/") ;;
  let '(err, event_id) := pushed in
  match err with
  | Some _ =>
      sc <- attr_status_code err ;;
      retried <- (if sc =? 401 then
                    token <- _login accesstoken (baseurl ++ "login/") ;;
                    pushed <- _eventpush event_name token (baseurl ++ "events/") ;;
                    pure (token, pushed)
                  else pure (token, (err, event_id))) ;;
      let '(token, (err, event_id)) := retried in
      sc <- attr_status_code err ;;
      if negb (py_in sc [Some 401; None]) then
        body <- attr_text err ;;
        set_comment (CommentStr body) ;;;
        return_ret
      else push_data token event_id
  | None => push_data token event_id
  end.

(** [event(baseurl, accesstoken, appid, event_name, event_message,
    timestamp=0)]: [timestamp] is [None] when the caller leaves it out. *)
Definition event (baseurl accesstoken appid event_name event_message : string)
    (timestamp : option pyvalue) (w : World) : outcome Ret * State :=
  let timestamp := timestamp_or_default timestamp in
  let st := {| world := w; calls := [];
               ret := {| name := event_name; changes := [];
                         result := false; comment := CommentStr "" |} |} in
  let baseurl := api_url baseurl appid in
  try_except_AttributeError
    (event_try baseurl accesstoken event_name event_message timestamp)
    (fun err => set_comment (CommentExc err) ;;; return_ret)
    st.

(** ** Reading a reply *)

(** The field [key] of the JSON object in the body of [r], when the body
    decodes and has it. *)
Definition reply_field (key : string) (r : Response) : option pyvalue :=
  match json_loads (text r) with
  | Some d =>
      match getitem d key with
      | inr v => Some v
      | inl _ => None
      end
  | None => None
  end.

(** The server in state [w] answers [rq] with the response [r] and moves
    to [w']. *)
Definition answers (rq : Request) (w : World) (r : Response) (w' : World) : Prop :=
  requests_post rq w = (PostOk r, w').

(** The server in state [w] answers a login with status 200 and a body
    that carries [token]. *)
Definition login_granted (accesstoken url : string) (w : World) (token : pyvalue)
    (w' : World) : Prop :=
  exists r, answers (login_request accesstoken url) w r w'
            /\ status_code r = 200
            /\ reply_field "token" r = Some token.

(** The three URLs [event] posts to. *)
Definition login_url (baseurl appid : string) : string :=
  api_url baseurl appid ++ "login/".

Definition events_url (baseurl appid : string) : string :=
  api_url baseurl appid ++ "events/".

Definition data_url (baseurl appid : string) (event_id : pyvalue) : string :=
  api_url baseurl appid ++ "events/" ++ py_str event_id ++ "/data/".

(** A server that answers every request, and whose answers carry what the
    helpers read from them: a [token] in a 200 answer to a login, an [id] in
    a 200 or 409 answer to an event creation. *)
Definition never_raises : Prop :=
  forall rq w, exists r w', answers rq w r w'.

Definition tokens_supplied : Prop :=
  forall accesstoken url w r w',
    answers (login_request accesstoken url) w r w' ->
    status_code r = 200 ->
    reply_field "token" r <> None.

Definition ids_supplied : Prop :=
  forall name token url w r w',
    answers (eventpush_request name token url) w r w' ->
    status_code r = 409 \/ status_code r = 200 ->
    reply_field "id" r <> None.

(** [m] sends the request [rq] and nothing else, on every path. *)
Definition sends {A} (m : M A) (rq : Request) : Prop :=
  forall st o st', m st = (o, st') -> exists w', st' = sent st rq w'.

(** [m] sends [rq] and raises nothing but [AttributeError], the exception
    [event] catches. *)
Definition settles {A} (m : M A) (rq : Request) : Prop :=
  forall st o st',
    m st = (o, st') ->
    exists w', st' = sent st rq w'
               /\ forall e, o = Raise e -> exists msg, e = AttributeError msg.

(** The requests a call of [event] may send, [baseurl] being the rebuilt
    base URL. *)
Inductive event_request (baseurl accesstoken event_name event_message : string)
    (timestamp : pyvalue) : Request -> Prop :=
| login_call :
    event_request baseurl accesstoken event_name event_message timestamp
      (login_request accesstoken (baseurl ++ "login/"))
| create_call token :
    event_request baseurl accesstoken event_name event_message timestamp
      (eventpush_request event_name token (baseurl ++ "events/"))
| push_call token event_id :
    event_request baseurl accesstoken event_name event_message timestamp
      (eventdatapush_request event_message timestamp token
         (baseurl ++ "events/" ++ py_str event_id ++ "/data/")).

End CoScale.

Arguments mkState {World} world calls ret.
Arguments world {World} s.
Arguments calls {World} s.
Arguments ret {World} s.
Arguments sent {World} st rq w'.
Arguments sends {World A} m rq.
Arguments settles {World A} m rq.
Arguments answers {World} requests_post rq w r w'.
Arguments login_granted {World} requests_post json_loads accesstoken url w token w'.
Arguments never_raises {World} requests_post.
Arguments tokens_supplied {World} requests_post json_loads.
Arguments ids_supplied {World} requests_post json_loads.

(** [key in rq.data]: the payload of [rq] has the field [key].  The three
    kinds of request are told apart by it: only a login carries
    [accessToken], only an event creation [name], only a data push
    [message]. *)
Definition has_field (key : string) (rq : Request) : bool :=
  match dict_get key (req_data rq) with
  | Some _ => true
  | None => false
  end.

(** An exception other than [AttributeError], the only one [event] catches. *)
Definition uncaught (e : exn) : Prop := forall msg, e <> AttributeError msg.

(** ** A concrete server and decoder, for running the model *)

Module Demo.

(** A scripted server: it answers the n-th request with the n-th entry of
    the script, whatever the request, and refuses connections once the
    script is used up. *)
Definition Script : Type := list post_outcome.

Definition scripted_post (rq : Request) (w : Script) : post_outcome * Script :=
  match w with
  | [] => (PostRaise (RequestException "connection refused"), [])
  | o :: rest => (o, rest)
  end.

Definition dquote : ascii := "034"%char.

Definition is_space (c : ascii) : bool :=
  ((c =? " ") || (c =? "009") || (c =? "010") || (c =? "013"))%char.

Definition is_digit (c : ascii) : bool :=
  let n := nat_of_ascii c in (Nat.leb 48 n && Nat.leb n 57)%bool.

Fixpoint skip_ws (s : string) : string :=
  match s with
  | String c r => if is_space c then skip_ws r else s
  | EmptyString => s
  end.

(** The characters up to the closing quote; escapes are outside the
    fragment. *)
Fixpoint read_string (s : string) : option (string * string) :=
  match s with
  | EmptyString => None
  | String c r =>
      if (c =? dquote)%char then Some (EmptyString, r)
      else if (c =? "\")%char then None
      else match read_string r with
           | Some (x, r') => Some (String c x, r')
           | None => None
           end
  end.

Fixpoint read_digits (acc : Z) (s : string) : Z * string :=
  match s with
  | String c r =>
      if is_digit c then read_digits (10 * acc + Z.of_nat (nat_of_ascii c - 48)) r
      else (acc, s)
  | EmptyString => (acc, s)
  end.

Definition read_value (s : string) : option (pyvalue * string) :=
  match s with
  | String "n" (String "u" (String "l" (String "l" r))) => Some (PyNone, r)
  | String "t" (String "r" (String "u" (String "e" r))) => Some (PyBool true, r)
  | String "f" (String "a" (String "l" (String "s" (String "e" r)))) =>
      Some (PyBool false, r)
  | String "0" r => Some (PyInt 0, r)
  | String c r =>
      if (c =? dquote)%char then
        match read_string r with
        | Some (x, r') => Some (PyStr x, r')
        | None => None
        end
      else if is_digit c then
        let (z, r') := read_digits 0 s in Some (PyInt z, r')
      else None
  | EmptyString => None
  end.

(** [d[k] = v]: a repeated key keeps its place and takes the new value. *)
Fixpoint dict_set (k : string) (v : pyvalue) (items : list (string * pyvalue))
    : list (string * pyvalue) :=
  match items with
  | [] => [(k, v)]
  | (k', v') :: rest =>
      if String.eqb k' k then (k', v) :: rest else (k', v') :: dict_set k v rest
  end.

Fixpoint members (fuel : nat) (s : string) (acc : list (string * pyvalue))
    : option pyvalue :=
  match fuel with
  | O => None
  | S fuel' =>
      match skip_ws s with
      | String c r =>
          if (c =? dquote)%char then
            match read_string r with
            | Some (k, r1) =>
                match skip_ws r1 with
                | String ":" r2 =>
                    match read_value (skip_ws r2) with
                    | Some (v, r3) =>
                        match skip_ws r3 with
                        | String "," r4 => members fuel' r4 (dict_set k v acc)
                        | String "}" r4 =>
                            match skip_ws r4 with
                            | EmptyString => Some (PyDict (dict_set k v acc))
                            | _ => None
                            end
                        | _ => None
                        end
                    | None => None
                    end
                | _ => None
                end
            | None => None
            end
          else None
      | EmptyString => None
      end
  end.

(** A decoder for the fragment of JSON the API answers with: one flat
    object whose values are strings without escapes, naturals, booleans or
    null.  Anything else is rejected. *)
Definition json_loads (s : string) : option pyvalue :=
  match skip_ws s with
  | String "{" r =>
      match skip_ws r with
      | String "}" r' =>
          match skip_ws r' with
          | EmptyString => Some (PyDict [])
          | _ => None
          end
      | _ => members (String.length s) r []
      end
  | _ => None
  end.

(** [repr], exact on containers of null, booleans, integers and strings
    that need no escaping. *)
Fixpoint py_repr (v : pyvalue) : string :=
  match v with
  | PyNone => "None"
  | PyBool true => "True"
  | PyBool false => "False"
  | PyInt z => str_of_int z
  | PyFloat r => r
  | PyStr s => "'" ++ s ++ "'"
  | PyList items =>
      "[" ++ (fix go (l : list pyvalue) : string :=
                match l with
                | [] => ""
                | x :: r =>
                    py_repr x ++ match r with [] => "" | _ => ", " ++ go r end
                end) items ++ "]"
  | PyDict items =>
      "{" ++ (fix go (l : list (string * pyvalue)) : string :=
                match l with
                | [] => ""
                | (k, x) :: r =>
                    "'" ++ k ++ "': " ++ py_repr x
                    ++ match r with [] => "" | _ => ", " ++ go r end
                end) items ++ "}"
  end.

(** The body [{"key": value}], [value] given as JSON text. *)
Definition quoted (s : string) : string :=
  String dquote (s ++ String dquote EmptyString).

Definition obj1 (key value : string) : string :=
  "{" ++ quoted key ++ ": " ++ value ++ "}".

Definition reply (status : Z) (body : string) : post_outcome :=
  PostOk {| status_code := status; text := body |}.

Definition token_reply (tok : string) : post_outcome :=
  reply 200 (obj1 "token" (quoted tok)).

Definition event : string -> string -> string -> string -> string ->
                   option pyvalue -> Script -> outcome Ret * State Script :=
  event Script scripted_post json_loads py_repr.

(** The invocation of the module's docstring, and the requests it makes. *)
Definition baseurl : string := "https://api.coscale.com/".
Definition accesstoken : string := "42c59aad-40b6-4924-9710-2d1d4a0fb632".
Definition appid : string := "00006e0e-5d0c-4633-abce-1e424f767a03".
Definition event_name : string := "Software updates".
Definition event_message : string := "Updating to version 2.2".

Definition run (timestamp : option pyvalue) (script : Script)
    : outcome Ret * State Script :=
  event baseurl accesstoken appid event_name event_message timestamp script.

(** A server that never fails: it grants every login, creates every event
    and accepts every data push; its state counts the requests. *)
Definition steady_post (rq : Request) (n : nat) : post_outcome * nat :=
  (if has_field "accessToken" rq then token_reply "t1"
   else if has_field "name" rq then reply 200 (obj1 "id" "42")
   else reply 200 "",
   S n).

(** Event creation answered 401, then 200 after the new login. *)
Definition create_retried : Script :=
  [token_reply "t1"; reply 401 "expired"; token_reply "t2";
   reply 200 (obj1 "id" "42"); reply 200 ""].

(** Data push answered 401, and 401 again after the new login. *)
Definition push_unauthorized_twice : Script :=
  [token_reply "t1"; reply 200 (obj1 "id" "42"); reply 401 "expired";
   token_reply "t2"; reply 401 "expired"].

Definition app_url : string :=
  "https://api.coscale.com/api/v1/app/00006e0e-5d0c-4633-abce-1e424f767a03/".

Definition login : Request :=
  login_request accesstoken (app_url ++ "login/").

Definition create (token : string) : Request :=
  eventpush_request event_name (PyStr token) (app_url ++ "events/").

Definition push (token id : string) (timestamp : Z) : Request :=
  eventdatapush_request event_message (PyInt timestamp) (PyStr token)
    (app_url ++ "events/" ++ id ++ "/data/").

End Demo.


(** * Properties *)

Section Properties.

Context {World : Type}.
Variable requests_post : Request -> World -> post_outcome * World.
Variable json_loads : string -> option pyvalue.
Variable py_repr : pyvalue -> string.

Local Abbreviation M := (M World).
Local Abbreviation post := (post World requests_post).
Local Abbreviation _login := (_login World requests_post json_loads).
Local Abbreviation _eventpush := (_eventpush World requests_post json_loads).
Local Abbreviation _eventdatapush := (_eventdatapush World requests_post).
Local Abbreviation event_try := (event_try World requests_post json_loads py_repr).
Local Abbreviation event := (event World requests_post json_loads py_repr).
Local Abbreviation reply_field := (reply_field json_loads).
Local Abbreviation py_str := (py_str py_repr).
Local Abbreviation data_url := (data_url py_repr).

(** ** The monad *)

Lemma bind_Ok {A B} (m : M A) (k : A -> M B) st a st' :
  m st = (Ok a, st') -> bind World m k st = k a st'.
Proof. unfold bind; intros ->; reflexivity. Qed.

Lemma bind_Raise {A B} (m : M A) (k : A -> M B) st e st' :
  m st = (Raise e, st') -> bind World m k st = (Raise e, st').
Proof. unfold bind; intros ->; reflexivity. Qed.

Lemma bind_pure {A B} (a : A) (k : A -> M B) st :
  bind World (pure World a) k st = k a st.
Proof. reflexivity. Qed.

Lemma bind_assoc {A B C} (m : M A) (k1 : A -> M B) (k2 : B -> M C) st :
  bind World (bind World m k1) k2 st
  = bind World m (fun a => bind World (k1 a) k2) st.
Proof. unfold bind; destruct (m st) as [[a | e] st']; reflexivity. Qed.

(** ** The URLs *)

Lemma append_assoc (a b c : string) : (a ++ b) ++ c = a ++ b ++ c.
Proof. induction a as [| x a IH]; cbn; [reflexivity | rewrite IH; reflexivity]. Qed.

(** Python adds strings left to right; the grouping makes no difference. *)
Lemma api_url_left_to_right baseurl appid :
  ((baseurl ++ "api/v1/app/") ++ appid) ++ "/" = api_url baseurl appid.
Proof. unfold api_url; rewrite !append_assoc; reflexivity. Qed.

Lemma data_url_left_to_right baseurl appid event_id :
  ((api_url baseurl appid ++ "events/") ++ py_str event_id) ++ "/data/"
  = data_url baseurl appid event_id.
Proof. unfold data_url; rewrite !append_assoc; reflexivity. Qed.

(** ** The helpers, reply by reply *)

Lemma post_answered st rq r w' :
  answers requests_post rq (world st) r w' ->
  post rq st = (Ok r, sent st rq w').
Proof. unfold answers, post; intros ->; reflexivity. Qed.

Lemma reply_field_text key r r' :
  text r' = text r -> reply_field key r' = reply_field key r.
Proof. unfold reply_field; intros ->; reflexivity. Qed.

Lemma reply_field_Some key r v :
  reply_field key r = Some v ->
  exists d, json_loads (text r) = Some d /\ getitem d key = inr v.
Proof.
  unfold reply_field; destruct (json_loads (text r)) as [d |]; [| discriminate].
  destruct (getitem d key) as [e | v'] eqn:G; [discriminate |].
  intros [= <-]; eauto.
Qed.

Lemma _login_ok accesstoken url st r w' token :
  answers requests_post (login_request accesstoken url) (world st) r w' ->
  status_code r = 200 ->
  reply_field "token" r = Some token ->
  _login accesstoken url st = (Ok token, sent st (login_request accesstoken url) w').
Proof.
  intros Hp Hs Hf. unfold _login.
  rewrite (bind_Ok _ _ _ _ _ (post_answered _ _ _ _ Hp)).
  rewrite Hs; cbn [Z.eqb Pos.eqb negb].
  destruct (reply_field_Some _ _ _ Hf) as (d & Hd & Hg).
  unfold bind, loads; rewrite Hd; cbn. rewrite Hg; reflexivity.
Qed.

Lemma _login_granted accesstoken url st token w' :
  login_granted requests_post json_loads accesstoken url (world st) token w' ->
  _login accesstoken url st = (Ok token, sent st (login_request accesstoken url) w').
Proof. intros (r & Hp & Hs & Hf); eapply _login_ok; eauto. Qed.

Lemma _login_refused accesstoken url st r w' :
  answers requests_post (login_request accesstoken url) (world st) r w' ->
  status_code r <> 200 ->
  _login accesstoken url st
  = (Raise (AttributeError (text r)), sent st (login_request accesstoken url) w').
Proof.
  intros Hp Hs. unfold _login.
  rewrite (bind_Ok _ _ _ _ _ (post_answered _ _ _ _ Hp)).
  apply Z.eqb_neq in Hs; rewrite Hs; reflexivity.
Qed.

Lemma _eventpush_ok name token url st r w' id :
  answers requests_post (eventpush_request name token url) (world st) r w' ->
  status_code r = 409 \/ status_code r = 200 ->
  reply_field "id" r = Some id ->
  _eventpush name token url st
  = (Ok (None, id), sent st (eventpush_request name token url) w').
Proof.
  intros Hp Hs Hf. unfold _eventpush.
  rewrite (bind_Ok _ _ _ _ _ (post_answered _ _ _ _ Hp)).
  replace ((status_code r =? 409) || (status_code r =? 200))%bool with true
    by (destruct Hs as [-> | ->]; reflexivity).
  destruct (reply_field_Some _ _ _ Hf) as (d & Hd & Hg).
  unfold bind, loads; rewrite Hd; cbn. rewrite Hg; reflexivity.
Qed.

Lemma _eventpush_error name token url st r w' :
  answers requests_post (eventpush_request name token url) (world st) r w' ->
  status_code r <> 409 ->
  status_code r <> 200 ->
  _eventpush name token url st
  = (Ok (Some r, PyNone), sent st (eventpush_request name token url) w').
Proof.
  intros Hp H409 H200. unfold _eventpush.
  rewrite (bind_Ok _ _ _ _ _ (post_answered _ _ _ _ Hp)).
  apply Z.eqb_neq in H409, H200; rewrite H409, H200; reflexivity.
Qed.

Lemma _eventpush_unauthorized name token url st r w' :
  answers requests_post (eventpush_request name token url) (world st) r w' ->
  status_code r = 401 ->
  _eventpush name token url st
  = (Ok (Some r, PyNone), sent st (eventpush_request name token url) w').
Proof.
  intros Hp Hs. apply _eventpush_error; [exact Hp | rewrite Hs; discriminate ..].
Qed.

Lemma _eventdatapush_ok message timestamp token url st r w' :
  answers requests_post (eventdatapush_request message timestamp token url)
    (world st) r w' ->
  status_code r = 200 ->
  _eventdatapush message timestamp token url st
  = (Ok None, sent st (eventdatapush_request message timestamp token url) w').
Proof.
  intros Hp Hs. unfold _eventdatapush.
  rewrite (bind_Ok _ _ _ _ _ (post_answered _ _ _ _ Hp)).
  rewrite Hs; reflexivity.
Qed.

Lemma _eventdatapush_error message timestamp token url st r w' :
  answers requests_post (eventdatapush_request message timestamp token url)
    (world st) r w' ->
  status_code r <> 200 ->
  _eventdatapush message timestamp token url st
  = (Ok (Some r), sent st (eventdatapush_request message timestamp token url) w').
Proof.
  intros Hp Hs. unfold _eventdatapush.
  rewrite (bind_Ok _ _ _ _ _ (post_answered _ _ _ _ Hp)).
  apply Z.eqb_neq in Hs; rewrite Hs; reflexivity.
Qed.

Lemma _eventdatapush_unauthorized message timestamp token url st r w' :
  answers requests_post (eventdatapush_request message timestamp token url)
    (world st) r w' ->
  status_code r = 401 ->
  _eventdatapush message timestamp token url st
  = (Ok (Some r), sent st (eventdatapush_request message timestamp token url) w').
Proof.
  intros Hp Hs. apply _eventdatapush_error; [exact Hp | rewrite Hs; discriminate].
Qed.

(** ** Every path of a helper sends exactly one request *)

Lemma post_sent st rq o st' :
  post rq st = (o, st') -> exists w', st' = sent st rq w'.
Proof.
  unfold post; destruct (requests_post rq (world st)) as [[r | e] w'];
    intros [= <- <-]; eauto.
Qed.

Ltac pure_tail :=
  repeat match goal with
         | |- context [?x =? ?y] => destruct (x =? y)
         | |- context [json_loads ?s] => destruct (json_loads s)
         | |- context [getitem ?d ?k] => destruct (getitem d k)
         | _ => progress cbn [negb orb]
         | _ => progress cbv beta iota delta [bind loads lift_exn raise pure]
         end;
  intros [= <- <-]; eauto.

Ltac after_post rq st :=
  let o := fresh "o" in
  let st1 := fresh "st" in
  let E := fresh "E" in
  let w := fresh "w" in
  unfold bind; destruct (post rq st) as [o st1] eqn:E;
  destruct (post_sent _ _ _ _ E) as [w ->]; clear E;
  destruct o as [r | e]; [| intros [= <- <-]; eauto].

Lemma _login_sends accesstoken url :
  sends (_login accesstoken url) (login_request accesstoken url).
Proof.
  intros st o st'. unfold _login.
  after_post (login_request accesstoken url) st.
  pure_tail.
Qed.

Lemma _eventpush_sends name token url :
  sends (_eventpush name token url) (eventpush_request name token url).
Proof.
  intros st o st'. unfold _eventpush.
  after_post (eventpush_request name token url) st.
  pure_tail.
Qed.

Lemma _eventdatapush_sends message timestamp token url :
  sends (_eventdatapush message timestamp token url)
        (eventdatapush_request message timestamp token url).
Proof.
  intros st o st'. unfold _eventdatapush.
  after_post (eventdatapush_request message timestamp token url) st.
  pure_tail.
Qed.

(** ** Running the orchestrator *)

(** Running [event] one call at a time: [run_ok lem] rewrites the next
    helper call with its equation [lem], [run_raise lem] does the same for
    a call that raises. *)
Ltac next_step :=
  cbv beta iota zeta delta [attr_status_code attr_text py_in existsb];
  cbn [orb negb]; rewrite ?bind_pure.
Ltac status_is H :=
  first [ rewrite H | rewrite (proj2 (Z.eqb_neq _ _) H) ];
  cbn [Z.eqb Pos.eqb orb negb]; next_step.
Ltac finish_run :=
  cbv beta iota zeta delta
    [bind pure raise set_comment set_result return_ret sent with_comment with_result
     world calls ret name changes result comment comment_str fst snd];
  cbn [app].
Ltac run_ok lem :=
  erewrite bind_Ok; [| solve [eapply lem; eauto]]; next_step.
Ltac run_raise lem :=
  erewrite bind_Raise; [| solve [eapply lem; eauto]]; next_step.
Ltac enter_event :=
  unfold event, try_except_AttributeError, event_try; next_step.

(** [walk] explores every path of [event] from the current call on: it
    splits on the outcome of each helper call, on the error it returned
    and on each status test. *)
Ltac walk_call m st lem :=
  let o := fresh "o" in
  let st1 := fresh "st" in
  let E := fresh "E" in
  let w := fresh "w" in
  destruct (m st) as [o st1] eqn:E;
  destruct (lem _ _ _ E) as [w ->];
  destruct o as [? | ?];
  [ rewrite (bind_Ok _ _ _ _ _ E) | rewrite (bind_Raise _ _ _ _ _ E) ];
  clear E.

Ltac walk :=
  repeat (next_step; rewrite ?bind_assoc;
          match goal with
          | |- context [bind _ (_login ?a ?u) ?k ?st] =>
              walk_call (_login a u) st (_login_sends a u)
          | |- context [bind _ (_eventpush ?n ?t ?u) ?k ?st] =>
              walk_call (_eventpush n t u) st (_eventpush_sends n t u)
          | |- context [bind _ (_eventdatapush ?m ?ts ?t ?u) ?k ?st] =>
              walk_call (_eventdatapush m ts t u) st (_eventdatapush_sends m ts t u)
          | |- context [_eventdatapush ?m ?ts ?t ?u ?st] =>
              let o := fresh "o" in
              let st1 := fresh "st" in
              let E := fresh "E" in
              let w := fresh "w" in
              destruct (_eventdatapush m ts t u st) as [o st1] eqn:E;
              destruct (_eventdatapush_sends m ts t u _ _ _ E) as [w ->]; clear E;
              destruct o as [? | ?]
          | p : (_ * _)%type |- _ => destruct p
          | err : option Response |- _ => destruct err
          | |- context [if ?x =? ?y then _ else _] => destruct (x =? y) eqn:?
          | |- context [negb ((?x =? ?y) || false)] => destruct (x =? y) eqn:?
          end);
  next_step; finish_run;
  repeat match goal with
         | |- context [match ?e with AttributeError _ => _ | _ => _ end] =>
             destruct e; finish_run
         end.

(** ** Every run of the orchestrator *)

Lemma event_calls_shape
    baseurl accesstoken appid event_name event_message timestamp w :
  Forall (event_request py_repr (api_url baseurl appid) accesstoken event_name
            event_message (timestamp_or_default timestamp))
         (calls (snd (event baseurl accesstoken appid event_name event_message
                        timestamp w))).
Proof.
  enter_event. walk.
  all: repeat constructor.
Qed.

Lemma event_first_call
    baseurl accesstoken appid event_name event_message timestamp w :
  hd_error (calls (snd (event baseurl accesstoken appid event_name event_message
                          timestamp w)))
  = Some (login_request accesstoken (login_url baseurl appid)).
Proof.
  enter_event. walk.
  all: reflexivity.
Qed.

Lemma event_ret_fields
    baseurl accesstoken appid event_name event_message timestamp w :
  name (ret (snd (event baseurl accesstoken appid event_name event_message
                    timestamp w))) = event_name
  /\ changes (ret (snd (event baseurl accesstoken appid event_name event_message
                          timestamp w))) = []
  /\ forall rec,
       fst (event baseurl accesstoken appid event_name event_message timestamp w)
       = Ok rec ->
       rec = ret (snd (event baseurl accesstoken appid event_name event_message
                         timestamp w)).
Proof.
  enter_event. walk.
  all: repeat split; try reflexivity; intros rec [= <-]; reflexivity.
Qed.

Lemma event_timestamps
    baseurl accesstoken appid event_name event_message timestamp w :
  Forall (fun rq => forall v, dict_get "timestamp" (req_data rq) = Some v ->
                              v = timestamp_or_default timestamp)
         (calls (snd (event baseurl accesstoken appid event_name event_message
                        timestamp w))).
Proof.
  eapply Forall_impl; [| apply event_calls_shape].
  intros rq [| token | token event_id] v; cbn; congruence.
Qed.

(** Once login and event creation have succeeded, the third request is the
    data push for the id the creation returned, whatever happens next. *)
Lemma event_reaches_push
    baseurl accesstoken appid event_name event_message timestamp
    w0 token w1 r2 id w2 :
  login_granted requests_post json_loads accesstoken (login_url baseurl appid)
    w0 token w1 ->
  answers requests_post
    (eventpush_request event_name token (events_url baseurl appid)) w1 r2 w2 ->
  status_code r2 = 409 \/ status_code r2 = 200 ->
  reply_field "id" r2 = Some id ->
  firstn 3 (calls (snd (event baseurl accesstoken appid event_name event_message
                          timestamp w0)))
  = [login_request accesstoken (login_url baseurl appid);
     eventpush_request event_name token (events_url baseurl appid);
     eventdatapush_request event_message (timestamp_or_default timestamp) token
       (data_url baseurl appid id)].
Proof.
  intros H1 H2 S2 F2. enter_event.
  run_ok _login_granted.
  run_ok _eventpush_ok.
  walk.
  all: reflexivity.
Qed.

(** ** The orchestrator, claim by claim *)

(** C3: when the login request is answered with a status other than 200,
    [event] returns a record with [result] false whose comment, read as a
    string, is the body of that answer, and the login request is the only
    request sent: no event is created and no data is pushed. *)
Theorem event_login_refused
    baseurl accesstoken appid event_name event_message timestamp w r w' :
  answers requests_post (login_request accesstoken (login_url baseurl appid)) w r w' ->
  status_code r <> 200 ->
  exists rec st,
    event baseurl accesstoken appid event_name event_message timestamp w = (Ok rec, st)
    /\ result rec = false
    /\ comment_str (comment rec) = text r
    /\ calls st = [login_request accesstoken (login_url baseurl appid)].
Proof.
  intros Hp Hs. unfold event, try_except_AttributeError, event_try.
  match goal with |- context [bind _ _ _ ?st] => set (st0 := st) end.
  rewrite (bind_Raise _ _ _ _ _ (_login_refused _ _ st0 _ _ Hp Hs)).
  cbn. do 2 eexists. repeat split; reflexivity.
Qed.

(** C4: a 409 answer to the event creation whose body carries an id is a
    success like a 200 one: [_eventpush] returns [(None, id)], which is what
    it returns on a 200 answer with the same body, and [event] goes on to
    push the data to the URL of that id. *)
Theorem eventpush_conflict_is_success
    baseurl accesstoken appid event_name event_message timestamp
    w0 token w1 r2 id w2 :
  login_granted requests_post json_loads accesstoken (login_url baseurl appid)
    w0 token w1 ->
  answers requests_post
    (eventpush_request event_name token (events_url baseurl appid)) w1 r2 w2 ->
  status_code r2 = 409 ->
  reply_field "id" r2 = Some id ->
  (forall sent_before rec,
     _eventpush event_name token (events_url baseurl appid)
       {| world := w1; calls := sent_before; ret := rec |}
     = (Ok (None, id),
        {| world := w2;
           calls := sent_before
                    ++ [eventpush_request event_name token (events_url baseurl appid)];
           ret := rec |}))
  /\ (forall st r200 w200,
        answers requests_post
          (eventpush_request event_name token (events_url baseurl appid))
          (world st) r200 w200 ->
        status_code r200 = 200 ->
        text r200 = text r2 ->
        fst (_eventpush event_name token (events_url baseurl appid) st)
        = Ok (None, id))
  /\ firstn 3 (calls (snd (event baseurl accesstoken appid event_name event_message
                             timestamp w0)))
     = [login_request accesstoken (login_url baseurl appid);
        eventpush_request event_name token (events_url baseurl appid);
        eventdatapush_request event_message (timestamp_or_default timestamp) token
          (data_url baseurl appid id)].
Proof.
  intros H1 H2 S2 F2. split; [| split].
  - intros sent_before rec.
    erewrite _eventpush_ok; [reflexivity | exact H2 | auto | exact F2].
  - intros st r200 w200 H200 S200 T200.
    erewrite _eventpush_ok; [reflexivity | exact H200 | auto |].
    rewrite (reply_field_text _ _ _ T200); exact F2.
  - eapply event_reaches_push; eauto.
Qed.

(** C5: when login and event creation succeed and the data push is
    answered with a status that is neither 200 nor 401 (500, say), [event]
    returns a record with [result] false whose comment is the body of that
    answer. *)
Theorem event_datapush_rejected
    baseurl accesstoken appid event_name event_message timestamp
    w0 token w1 r2 id w2 r3 w3 :
  login_granted requests_post json_loads accesstoken (login_url baseurl appid)
    w0 token w1 ->
  answers requests_post
    (eventpush_request event_name token (events_url baseurl appid)) w1 r2 w2 ->
  status_code r2 = 409 \/ status_code r2 = 200 ->
  reply_field "id" r2 = Some id ->
  answers requests_post
    (eventdatapush_request event_message (timestamp_or_default timestamp) token
       (data_url baseurl appid id)) w2 r3 w3 ->
  status_code r3 <> 200 ->
  status_code r3 <> 401 ->
  exists rec st,
    event baseurl accesstoken appid event_name event_message timestamp w0 = (Ok rec, st)
    /\ result rec = false
    /\ comment rec = CommentStr (text r3).
Proof.
  intros H1 H2 S2 F2 H3 S3 S3'. enter_event.
  run_ok _login_granted.
  run_ok _eventpush_ok.
  run_ok _eventdatapush_error.
  status_is S3'. status_is S3'. finish_run.
  do 2 eexists; repeat split; reflexivity.
Qed.

(** C6: when the caller leaves [timestamp] out, every request of [event]
    that carries a [timestamp] field carries 0 there; and once login and
    event creation have succeeded, the third request is the data push with
    payload [message], [timestamp = 0], [subject]. *)
Theorem event_timestamp_omitted
    baseurl accesstoken appid event_name event_message w :
  Forall (fun rq => forall v, dict_get "timestamp" (req_data rq) = Some v ->
                              v = PyInt 0)
         (calls (snd (event baseurl accesstoken appid event_name event_message
                        None w)))
  /\ forall token w1 r2 id w2,
       login_granted requests_post json_loads accesstoken
         (login_url baseurl appid) w token w1 ->
       answers requests_post
         (eventpush_request event_name token (events_url baseurl appid)) w1 r2 w2 ->
       status_code r2 = 409 \/ status_code r2 = 200 ->
       reply_field "id" r2 = Some id ->
       exists rq,
         nth_error (calls (snd (event baseurl accesstoken appid event_name
                                  event_message None w))) 2 = Some rq
         /\ req_url rq = data_url baseurl appid id
         /\ req_data rq = [("message", PyStr event_message);
                           ("timestamp", PyInt 0);
                           ("subject", PyStr "a")].
Proof.
  split.
  - apply (event_timestamps baseurl accesstoken appid event_name event_message None).
  - intros token w1 r2 id w2 H1 H2 S2 F2.
    pose proof (event_reaches_push baseurl accesstoken appid event_name
                 event_message None _ _ _ _ _ _ H1 H2 S2 F2) as H.
    destruct (calls _) as [| a [| b [| c l]]]; try discriminate H.
    injection H as -> -> ->.
    eexists; repeat split; reflexivity.
Qed.

(** C7: every request [event] sends goes to a URL built from
    [baseurl + "api/v1/app/" + appid + "/"]: a login goes to that base
    followed by ["login/"], an event creation to the base followed by
    ["events/"], a data push to the base followed by ["events/"], the
    event id as a string and ["/data/"].  The first request is always the
    login, and once login and event creation have succeeded the third is the
    data push whose URL carries the id the creation returned. *)
Theorem event_urls
    baseurl accesstoken appid event_name event_message timestamp w :
  Forall
    (fun rq =>
       rq = login_request accesstoken
              ((baseurl ++ "api/v1/app/" ++ appid ++ "/") ++ "login/")
       \/ (exists token,
             rq = eventpush_request event_name token
                    ((baseurl ++ "api/v1/app/" ++ appid ++ "/") ++ "events/"))
       \/ (exists token event_id,
             rq = eventdatapush_request event_message
                    (timestamp_or_default timestamp) token
                    ((baseurl ++ "api/v1/app/" ++ appid ++ "/")
                     ++ "events/" ++ py_str event_id ++ "/data/")))
    (calls (snd (event baseurl accesstoken appid event_name event_message
                   timestamp w)))
  /\ hd_error (calls (snd (event baseurl accesstoken appid event_name
                             event_message timestamp w)))
     = Some (login_request accesstoken
               ((baseurl ++ "api/v1/app/" ++ appid ++ "/") ++ "login/"))
  /\ forall token w1 r2 id w2,
       login_granted requests_post json_loads accesstoken
         ((baseurl ++ "api/v1/app/" ++ appid ++ "/") ++ "login/") w token w1 ->
       answers requests_post
         (eventpush_request event_name token
            ((baseurl ++ "api/v1/app/" ++ appid ++ "/") ++ "events/")) w1 r2 w2 ->
       status_code r2 = 409 \/ status_code r2 = 200 ->
       reply_field "id" r2 = Some id ->
       nth_error (calls (snd (event baseurl accesstoken appid event_name
                                event_message timestamp w))) 2
       = Some (eventdatapush_request event_message (timestamp_or_default timestamp)
                 token
                 ((baseurl ++ "api/v1/app/" ++ appid ++ "/")
                  ++ "events/" ++ py_str id ++ "/data/")).
Proof.
  split; [| split; [apply event_first_call |]].
  - eapply Forall_impl; [| apply event_calls_shape].
    intros rq [| token | token event_id]; eauto.
  - intros token w1 r2 id w2 H1 H2 S2 F2.
    pose proof (event_reaches_push baseurl accesstoken appid event_name
                 event_message timestamp _ _ _ _ _ _ H1 H2 S2 F2) as H.
    destruct (calls _) as [| a [| b [| c l]]]; try discriminate H.
    injection H as -> -> ->. reflexivity.
Qed.

(** C8: when login and event creation have succeeded and the data push is
    answered 401, [event] logs in again once and, if that login yields a
    token, pushes the data once more with the new token; nothing is sent
    after that, whatever the second push is answered. *)
Theorem event_datapush_retried_once
    baseurl accesstoken appid event_name event_message timestamp
    w0 token w1 r2 id w2 r3 w3 :
  login_granted requests_post json_loads accesstoken (login_url baseurl appid)
    w0 token w1 ->
  answers requests_post
    (eventpush_request event_name token (events_url baseurl appid)) w1 r2 w2 ->
  status_code r2 = 409 \/ status_code r2 = 200 ->
  reply_field "id" r2 = Some id ->
  answers requests_post
    (eventdatapush_request event_message (timestamp_or_default timestamp) token
       (data_url baseurl appid id)) w2 r3 w3 ->
  status_code r3 = 401 ->
  (exists rest,
     calls (snd (event baseurl accesstoken appid event_name event_message
                   timestamp w0))
     = ([login_request accesstoken (login_url baseurl appid);
         eventpush_request event_name token (events_url baseurl appid);
         eventdatapush_request event_message (timestamp_or_default timestamp) token
           (data_url baseurl appid id);
         login_request accesstoken (login_url baseurl appid)] ++ rest)%list
     /\ (rest = []
         \/ exists token',
              rest = [eventdatapush_request event_message
                        (timestamp_or_default timestamp) token'
                        (data_url baseurl appid id)]))
  /\ forall token' w4,
       login_granted requests_post json_loads accesstoken
         (login_url baseurl appid) w3 token' w4 ->
       calls (snd (event baseurl accesstoken appid event_name event_message
                     timestamp w0))
       = [login_request accesstoken (login_url baseurl appid);
          eventpush_request event_name token (events_url baseurl appid);
          eventdatapush_request event_message (timestamp_or_default timestamp) token
            (data_url baseurl appid id);
          login_request accesstoken (login_url baseurl appid);
          eventdatapush_request event_message (timestamp_or_default timestamp) token'
            (data_url baseurl appid id)].
Proof.
  intros H1 H2 S2 F2 H3 S3. split.
  - enter_event.
    run_ok _login_granted.
    run_ok _eventpush_ok.
    run_ok _eventdatapush_unauthorized.
    status_is S3.
    walk.
    all: eexists; split; [reflexivity | eauto].
  - intros token' w4 H4. enter_event.
    run_ok _login_granted.
    run_ok _eventpush_ok.
    run_ok _eventdatapush_unauthorized.
    status_is S3. rewrite bind_assoc.
    run_ok _login_granted.
    walk.
    all: reflexivity.
Qed.

(** C9: when the event creation is answered 401 both at first and after the
    new login, [event] does not stop there: it goes on with no event id and
    sends the data push to [.../events/None/data/]; if that push is
    answered 200 the record even reports success. *)
Theorem event_create_unauthorized_twice
    baseurl accesstoken appid event_name event_message timestamp
    w0 token w1 r2 w2 token' w3 r4 w4 :
  login_granted requests_post json_loads accesstoken (login_url baseurl appid)
    w0 token w1 ->
  answers requests_post
    (eventpush_request event_name token (events_url baseurl appid)) w1 r2 w2 ->
  status_code r2 = 401 ->
  login_granted requests_post json_loads accesstoken (login_url baseurl appid)
    w2 token' w3 ->
  answers requests_post
    (eventpush_request event_name token' (events_url baseurl appid)) w3 r4 w4 ->
  status_code r4 = 401 ->
  firstn 5 (calls (snd (event baseurl accesstoken appid event_name event_message
                          timestamp w0)))
  = [login_request accesstoken (login_url baseurl appid);
     eventpush_request event_name token (events_url baseurl appid);
     login_request accesstoken (login_url baseurl appid);
     eventpush_request event_name token' (events_url baseurl appid);
     eventdatapush_request event_message (timestamp_or_default timestamp) token'
       (api_url baseurl appid ++ "events/None/data/")]
  /\ forall r5 w5,
       answers requests_post
         (eventdatapush_request event_message (timestamp_or_default timestamp)
            token' (api_url baseurl appid ++ "events/None/data/")) w4 r5 w5 ->
       status_code r5 = 200 ->
       fst (event baseurl accesstoken appid event_name event_message timestamp w0)
       = Ok {| name := event_name; changes := []; result := true;
               comment := CommentStr ("Sent event: " ++ event_name) |}.
Proof.
  intros H1 H2 S2 H3 H4 S4. split.
  - enter_event.
    run_ok _login_granted.
    run_ok _eventpush_unauthorized.
    status_is S2. rewrite bind_assoc.
    run_ok _login_granted. rewrite bind_assoc.
    run_ok _eventpush_unauthorized.
    status_is S4.
    walk.
    all: reflexivity.
  - intros r5 w5 H5 S5. enter_event.
    run_ok _login_granted.
    run_ok _eventpush_unauthorized.
    status_is S2. rewrite bind_assoc.
    run_ok _login_granted. rewrite bind_assoc.
    run_ok _eventpush_unauthorized.
    status_is S4.
    run_ok _eventdatapush_ok.
    finish_run. reflexivity.
Qed.

(** C10: whenever [event] returns a record, on the success path, on a
    handled error or after catching the exception, the record's [name] is
    the [event_name] argument and its [changes] is the empty mapping. *)
Theorem event_name_and_changes
    baseurl accesstoken appid event_name event_message timestamp w rec st :
  event baseurl accesstoken appid event_name event_message timestamp w = (Ok rec, st) ->
  name rec = event_name /\ changes rec = [].
Proof.
  intros E.
  destruct (event_ret_fields baseurl accesstoken appid event_name event_message
              timestamp w) as (Hn & Hc & Hr).
  rewrite E in Hn, Hc, Hr. rewrite (Hr rec eq_refl). auto.
Qed.

(** ** After the retry *)

(** The status test that follows a retry reads [err.status_code] whatever
    the retry returned.  A retry that succeeds leaves [err] at [None], the
    read raises [AttributeError], and the handler meant for a refused login
    turns it into a failure record. *)
Lemma event_create_retry_caught
    baseurl accesstoken appid event_name event_message timestamp
    w0 token w1 r2 w2 token' w3 r4 id w4 :
  login_granted requests_post json_loads accesstoken (login_url baseurl appid)
    w0 token w1 ->
  answers requests_post
    (eventpush_request event_name token (events_url baseurl appid)) w1 r2 w2 ->
  status_code r2 = 401 ->
  login_granted requests_post json_loads accesstoken (login_url baseurl appid)
    w2 token' w3 ->
  answers requests_post
    (eventpush_request event_name token' (events_url baseurl appid)) w3 r4 w4 ->
  status_code r4 = 409 \/ status_code r4 = 200 ->
  reply_field "id" r4 = Some id ->
  fst (event baseurl accesstoken appid event_name event_message timestamp w0)
  = Ok {| name := event_name; changes := []; result := false;
          comment := CommentExc "'NoneType' object has no attribute 'status_code'" |}
  /\ calls (snd (event baseurl accesstoken appid event_name event_message
                   timestamp w0))
     = [login_request accesstoken (login_url baseurl appid);
        eventpush_request event_name token (events_url baseurl appid);
        login_request accesstoken (login_url baseurl appid);
        eventpush_request event_name token' (events_url baseurl appid)].
Proof.
  intros H1 H2 S2 H3 H4 S4 F4. enter_event.
  run_ok _login_granted.
  run_ok _eventpush_unauthorized.
  status_is S2. rewrite bind_assoc.
  run_ok _login_granted. rewrite bind_assoc.
  run_ok _eventpush_ok.
  finish_run. split; reflexivity.
Qed.

(** The same test lets a second 401 through: a data push refused twice ends
    in a record that reports success. *)
Lemma event_datapush_unauthorized_twice
    baseurl accesstoken appid event_name event_message timestamp
    w0 token w1 r2 id w2 r3 w3 token' w4 r5 w5 :
  login_granted requests_post json_loads accesstoken (login_url baseurl appid)
    w0 token w1 ->
  answers requests_post
    (eventpush_request event_name token (events_url baseurl appid)) w1 r2 w2 ->
  status_code r2 = 409 \/ status_code r2 = 200 ->
  reply_field "id" r2 = Some id ->
  answers requests_post
    (eventdatapush_request event_message (timestamp_or_default timestamp) token
       (data_url baseurl appid id)) w2 r3 w3 ->
  status_code r3 = 401 ->
  login_granted requests_post json_loads accesstoken (login_url baseurl appid)
    w3 token' w4 ->
  answers requests_post
    (eventdatapush_request event_message (timestamp_or_default timestamp) token'
       (data_url baseurl appid id)) w4 r5 w5 ->
  status_code r5 = 401 ->
  fst (event baseurl accesstoken appid event_name event_message timestamp w0)
  = Ok {| name := event_name; changes := []; result := true;
          comment := CommentStr ("Sent event: " ++ event_name) |}.
Proof.
  intros H1 H2 S2 F2 H3 S3 H4 H5 S5. enter_event.
  run_ok _login_granted.
  run_ok _eventpush_ok.
  run_ok _eventdatapush_unauthorized.
  status_is S3. rewrite bind_assoc.
  run_ok _login_granted.
  run_ok _eventdatapush_unauthorized.
  status_is S5.
  finish_run. reflexivity.
Qed.

(** ** Success, and the errors [event] reports *)

(** X1: when the login is granted, the event creation is answered 200 or
    409 with an id and the data push is answered 200, [event] returns a
    record with [result] true and the comment ["Sent event: " + event_name],
    having sent exactly three requests: login, creation, data push. *)
Theorem event_sent_ok
    baseurl accesstoken appid event_name event_message timestamp
    w0 token w1 r2 id w2 r3 w3 :
  login_granted requests_post json_loads accesstoken (login_url baseurl appid)
    w0 token w1 ->
  answers requests_post
    (eventpush_request event_name token (events_url baseurl appid)) w1 r2 w2 ->
  status_code r2 = 409 \/ status_code r2 = 200 ->
  reply_field "id" r2 = Some id ->
  answers requests_post
    (eventdatapush_request event_message (timestamp_or_default timestamp) token
       (data_url baseurl appid id)) w2 r3 w3 ->
  status_code r3 = 200 ->
  fst (event baseurl accesstoken appid event_name event_message timestamp w0)
  = Ok {| name := event_name; changes := []; result := true;
          comment := CommentStr ("Sent event: " ++ event_name) |}
  /\ calls (snd (event baseurl accesstoken appid event_name event_message
                   timestamp w0))
     = [login_request accesstoken (login_url baseurl appid);
        eventpush_request event_name token (events_url baseurl appid);
        eventdatapush_request event_message (timestamp_or_default timestamp) token
          (data_url baseurl appid id)].
Proof.
  intros H1 H2 S2 F2 H3 S3. enter_event.
  run_ok _login_granted.
  run_ok _eventpush_ok.
  run_ok _eventdatapush_ok.
  finish_run. split; reflexivity.
Qed.

(** X2: an event creation answered with a status other than 200, 409 and
    401 (a 201 or a 500, say) is not retried: [event] returns a record with
    [result] false whose comment is the body of that answer, and has sent
    only the login and the creation. *)
Theorem event_create_rejected
    baseurl accesstoken appid event_name event_message timestamp
    w0 token w1 r2 w2 :
  login_granted requests_post json_loads accesstoken (login_url baseurl appid)
    w0 token w1 ->
  answers requests_post
    (eventpush_request event_name token (events_url baseurl appid)) w1 r2 w2 ->
  status_code r2 <> 409 ->
  status_code r2 <> 200 ->
  status_code r2 <> 401 ->
  fst (event baseurl accesstoken appid event_name event_message timestamp w0)
  = Ok {| name := event_name; changes := []; result := false;
          comment := CommentStr (text r2) |}
  /\ calls (snd (event baseurl accesstoken appid event_name event_message
                   timestamp w0))
     = [login_request accesstoken (login_url baseurl appid);
        eventpush_request event_name token (events_url baseurl appid)].
Proof.
  intros H1 H2 S409 S200 S401. enter_event.
  run_ok _login_granted.
  run_ok _eventpush_error.
  status_is S401. status_is S401.
  finish_run. split; reflexivity.
Qed.

(** X3: when the event creation is answered 401, the new login is granted
    and the second creation is answered with a status other than 200, 409
    and 401, [event] returns a record with [result] false whose comment is
    the body of the second answer; it has sent login, creation, login,
    creation and no data push. *)
Theorem event_create_retry_rejected
    baseurl accesstoken appid event_name event_message timestamp
    w0 token w1 r2 w2 token' w3 r4 w4 :
  login_granted requests_post json_loads accesstoken (login_url baseurl appid)
    w0 token w1 ->
  answers requests_post
    (eventpush_request event_name token (events_url baseurl appid)) w1 r2 w2 ->
  status_code r2 = 401 ->
  login_granted requests_post json_loads accesstoken (login_url baseurl appid)
    w2 token' w3 ->
  answers requests_post
    (eventpush_request event_name token' (events_url baseurl appid)) w3 r4 w4 ->
  status_code r4 <> 409 ->
  status_code r4 <> 200 ->
  status_code r4 <> 401 ->
  fst (event baseurl accesstoken appid event_name event_message timestamp w0)
  = Ok {| name := event_name; changes := []; result := false;
          comment := CommentStr (text r4) |}
  /\ calls (snd (event baseurl accesstoken appid event_name event_message
                   timestamp w0))
     = [login_request accesstoken (login_url baseurl appid);
        eventpush_request event_name token (events_url baseurl appid);
        login_request accesstoken (login_url baseurl appid);
        eventpush_request event_name token' (events_url baseurl appid)].
Proof.
  intros H1 H2 S2 H3 H4 S409 S200 S401. enter_event.
  run_ok _login_granted.
  run_ok _eventpush_unauthorized.
  status_is S2. rewrite bind_assoc.
  run_ok _login_granted. rewrite bind_assoc.
  run_ok _eventpush_error.
  status_is S401.
  finish_run. split; reflexivity.
Qed.

(** X4: when the event creation is answered 401 and the login that follows
    is refused (a status other than 200), [event] returns a record with
    [result] false whose comment is the exception carrying the body of that
    login answer; the event creation is not tried again. *)
Theorem event_create_relogin_refused
    baseurl accesstoken appid event_name event_message timestamp
    w0 token w1 r2 w2 r3 w3 :
  login_granted requests_post json_loads accesstoken (login_url baseurl appid)
    w0 token w1 ->
  answers requests_post
    (eventpush_request event_name token (events_url baseurl appid)) w1 r2 w2 ->
  status_code r2 = 401 ->
  answers requests_post (login_request accesstoken (login_url baseurl appid))
    w2 r3 w3 ->
  status_code r3 <> 200 ->
  fst (event baseurl accesstoken appid event_name event_message timestamp w0)
  = Ok {| name := event_name; changes := []; result := false;
          comment := CommentExc (text r3) |}
  /\ calls (snd (event baseurl accesstoken appid event_name event_message
                   timestamp w0))
     = [login_request accesstoken (login_url baseurl appid);
        eventpush_request event_name token (events_url baseurl appid);
        login_request accesstoken (login_url baseurl appid)].
Proof.
  intros H1 H2 S2 H3 S3. enter_event.
  run_ok _login_granted.
  run_ok _eventpush_unauthorized.
  status_is S2. rewrite bind_assoc.
  run_raise _login_refused.
  finish_run. split; reflexivity.
Qed.

(** X5: when the data push is answered 401, the new login is granted and
    the second push is answered with a status other than 200 and 401,
    [event] returns a record with [result] false whose comment is the body of
    the second answer, after five requests. *)
Theorem event_datapush_retry_rejected
    baseurl accesstoken appid event_name event_message timestamp
    w0 token w1 r2 id w2 r3 w3 token' w4 r5 w5 :
  login_granted requests_post json_loads accesstoken (login_url baseurl appid)
    w0 token w1 ->
  answers requests_post
    (eventpush_request event_name token (events_url baseurl appid)) w1 r2 w2 ->
  status_code r2 = 409 \/ status_code r2 = 200 ->
  reply_field "id" r2 = Some id ->
  answers requests_post
    (eventdatapush_request event_message (timestamp_or_default timestamp) token
       (data_url baseurl appid id)) w2 r3 w3 ->
  status_code r3 = 401 ->
  login_granted requests_post json_loads accesstoken (login_url baseurl appid)
    w3 token' w4 ->
  answers requests_post
    (eventdatapush_request event_message (timestamp_or_default timestamp) token'
       (data_url baseurl appid id)) w4 r5 w5 ->
  status_code r5 <> 200 ->
  status_code r5 <> 401 ->
  fst (event baseurl accesstoken appid event_name event_message timestamp w0)
  = Ok {| name := event_name; changes := []; result := false;
          comment := CommentStr (text r5) |}
  /\ calls (snd (event baseurl accesstoken appid event_name event_message
                   timestamp w0))
     = [login_request accesstoken (login_url baseurl appid);
        eventpush_request event_name token (events_url baseurl appid);
        eventdatapush_request event_message (timestamp_or_default timestamp) token
          (data_url baseurl appid id);
        login_request accesstoken (login_url baseurl appid);
        eventdatapush_request event_message (timestamp_or_default timestamp) token'
          (data_url baseurl appid id)].
Proof.
  intros H1 H2 S2 F2 H3 S3 H4 H5 S200 S401. enter_event.
  run_ok _login_granted.
  run_ok _eventpush_ok.
  run_ok _eventdatapush_unauthorized.
  status_is S3. rewrite bind_assoc.
  run_ok _login_granted.
  run_ok _eventdatapush_error.
  status_is S401.
  finish_run. split; reflexivity.
Qed.

(** X6: when the data push is answered 401 and the login that follows is
    refused (a status other than 200), [event] returns a record with
    [result] false whose comment is the exception carrying the body of that
    login answer; the data push is not tried again. *)
Theorem event_datapush_relogin_refused
    baseurl accesstoken appid event_name event_message timestamp
    w0 token w1 r2 id w2 r3 w3 r4 w4 :
  login_granted requests_post json_loads accesstoken (login_url baseurl appid)
    w0 token w1 ->
  answers requests_post
    (eventpush_request event_name token (events_url baseurl appid)) w1 r2 w2 ->
  status_code r2 = 409 \/ status_code r2 = 200 ->
  reply_field "id" r2 = Some id ->
  answers requests_post
    (eventdatapush_request event_message (timestamp_or_default timestamp) token
       (data_url baseurl appid id)) w2 r3 w3 ->
  status_code r3 = 401 ->
  answers requests_post (login_request accesstoken (login_url baseurl appid))
    w3 r4 w4 ->
  status_code r4 <> 200 ->
  fst (event baseurl accesstoken appid event_name event_message timestamp w0)
  = Ok {| name := event_name; changes := []; result := false;
          comment := CommentExc (text r4) |}
  /\ calls (snd (event baseurl accesstoken appid event_name event_message
                   timestamp w0))
     = [login_request accesstoken (login_url baseurl appid);
        eventpush_request event_name token (events_url baseurl appid);
        eventdatapush_request event_message (timestamp_or_default timestamp) token
          (data_url baseurl appid id);
        login_request accesstoken (login_url baseurl appid)].
Proof.
  intros H1 H2 S2 F2 H3 S3 H4 S4. enter_event.
  run_ok _login_granted.
  run_ok _eventpush_ok.
  run_ok _eventdatapush_unauthorized.
  status_is S3. rewrite bind_assoc.
  run_raise _login_refused.
  finish_run. split; reflexivity.
Qed.

(** ** Exceptions that reach the caller *)

Lemma getitem_uncaught obj key e : getitem obj key = inl e -> uncaught e.
Proof.
  destruct obj; cbn; try (intros [= <-] msg; discriminate).
  destruct (dict_get key items); intros [= <-] msg; discriminate.
Qed.

Lemma loads_getitem_uncaught key r st :
  reply_field key r = None ->
  exists e,
    bind World (loads World json_loads (text r))
      (fun response => lift_exn World (getitem response key)) st = (Raise e, st)
    /\ uncaught e.
Proof.
  unfold reply_field, bind, loads.
  destruct (json_loads (text r)) as [d |]; cbn.
  - destruct (getitem d key) as [e | v] eqn:G; [| discriminate].
    intros _. exists e. split; [reflexivity | eapply getitem_uncaught; eauto].
  - intros _. eexists. split; [reflexivity | intros msg; discriminate].
Qed.

Lemma _login_without_token accesstoken url st r w' :
  answers requests_post (login_request accesstoken url) (world st) r w' ->
  status_code r = 200 ->
  reply_field "token" r = None ->
  exists e,
    _login accesstoken url st = (Raise e, sent st (login_request accesstoken url) w')
    /\ uncaught e.
Proof.
  intros Hp Hs Hf. unfold _login.
  rewrite (bind_Ok _ _ _ _ _ (post_answered _ _ _ _ Hp)).
  rewrite Hs; cbn [Z.eqb Pos.eqb negb].
  apply loads_getitem_uncaught; exact Hf.
Qed.

Lemma _eventpush_without_id name token url st r w' :
  answers requests_post (eventpush_request name token url) (world st) r w' ->
  status_code r = 409 \/ status_code r = 200 ->
  reply_field "id" r = None ->
  exists e,
    _eventpush name token url st
    = (Raise e, sent st (eventpush_request name token url) w')
    /\ uncaught e.
Proof.
  intros Hp Hs Hf. unfold _eventpush.
  rewrite (bind_Ok _ _ _ _ _ (post_answered _ _ _ _ Hp)).
  replace ((status_code r =? 409) || (status_code r =? 200))%bool with true
    by (destruct Hs as [-> | ->]; reflexivity).
  destruct (loads_getitem_uncaught "id" r
              (sent st (eventpush_request name token url) w') Hf) as (e & He & Hu).
  exists e. split; [| exact Hu].
  revert He. unfold bind, loads.
  destruct (json_loads (text r)) as [d |]; cbn.
  - destruct (getitem d "id"); cbn; [intros [= <-]; reflexivity | intros [=]].
  - intros [= <-]; reflexivity.
Qed.

Lemma _login_fails accesstoken url st e w' :
  requests_post (login_request accesstoken url) (world st) = (PostRaise e, w') ->
  _login accesstoken url st = (Raise e, sent st (login_request accesstoken url) w').
Proof.
  intros Hp. unfold _login, bind, post. rewrite Hp. reflexivity.
Qed.

Ltac reraise Hu :=
  finish_run;
  match goal with
  | |- context [match ?e with AttributeError _ => _ | _ => _ end] =>
      destruct e; try (exfalso; eapply Hu; reflexivity)
  end.

(** X7: a login answered 200 whose body has no usable [token] (it is not
    JSON, not an object, or an object without that key) makes [event] raise
    to its caller instead of returning a record; only the login has been
    sent. *)
Theorem event_login_without_token
    baseurl accesstoken appid event_name event_message timestamp w r w' :
  answers requests_post (login_request accesstoken (login_url baseurl appid)) w r w' ->
  status_code r = 200 ->
  reply_field "token" r = None ->
  exists e,
    fst (event baseurl accesstoken appid event_name event_message timestamp w)
    = Raise e
    /\ uncaught e
    /\ calls (snd (event baseurl accesstoken appid event_name event_message
                     timestamp w))
       = [login_request accesstoken (login_url baseurl appid)].
Proof.
  intros Hp Hs Hf. enter_event.
  match goal with |- context [bind _ _ _ ?st] => set (st0 := st) end.
  destruct (_login_without_token accesstoken (login_url baseurl appid) st0 r w'
              Hp Hs Hf) as (e & He & Hu).
  unfold login_url in He. rewrite (bind_Raise _ _ _ _ _ He).
  exists e. subst st0. reraise Hu; repeat split; auto.
Qed.

(** X8: an event creation answered 200 or 409 whose body has no usable [id]
    makes [event] raise to its caller; no data is pushed. *)
Theorem event_create_without_id
    baseurl accesstoken appid event_name event_message timestamp
    w0 token w1 r2 w2 :
  login_granted requests_post json_loads accesstoken (login_url baseurl appid)
    w0 token w1 ->
  answers requests_post
    (eventpush_request event_name token (events_url baseurl appid)) w1 r2 w2 ->
  status_code r2 = 409 \/ status_code r2 = 200 ->
  reply_field "id" r2 = None ->
  exists e,
    fst (event baseurl accesstoken appid event_name event_message timestamp w0)
    = Raise e
    /\ uncaught e
    /\ calls (snd (event baseurl accesstoken appid event_name event_message
                     timestamp w0))
       = [login_request accesstoken (login_url baseurl appid);
          eventpush_request event_name token (events_url baseurl appid)].
Proof.
  intros H1 H2 S2 F2. enter_event.
  run_ok _login_granted.
  match goal with |- context [bind _ _ _ ?st] => set (st1 := st) end.
  destruct (_eventpush_without_id event_name token (events_url baseurl appid) st1
              r2 w2 H2 S2 F2) as (e & He & Hu).
  unfold events_url in He. rewrite (bind_Raise _ _ _ _ _ He).
  exists e. subst st1. reraise Hu; repeat split; auto.
Qed.

(** X9: when [requests.post] itself raises at the login (a timeout, a
    refused connection), [event] lets that exception through to its caller;
    nothing else is sent. *)
Theorem event_login_network_failure
    baseurl accesstoken appid event_name event_message timestamp w e w' :
  requests_post (login_request accesstoken (login_url baseurl appid)) w
  = (PostRaise e, w') ->
  uncaught e ->
  fst (event baseurl accesstoken appid event_name event_message timestamp w)
  = Raise e
  /\ calls (snd (event baseurl accesstoken appid event_name event_message
                   timestamp w))
     = [login_request accesstoken (login_url baseurl appid)].
Proof.
  intros Hp Hu. enter_event.
  run_raise _login_fails.
  reraise Hu; split; reflexivity.
Qed.

(** ** Every run, once more *)

Lemma event_every_run
    baseurl accesstoken appid event_name event_message timestamp w :
  (forall e,
     fst (event baseurl accesstoken appid event_name event_message timestamp w)
     = Raise e -> uncaught e)
  /\ ((1 <= List.length (calls (snd (event baseurl accesstoken appid event_name
                                       event_message timestamp w))) <= 7)%nat
      /\ (List.length (filter (has_field "accessToken")
                         (calls (snd (event baseurl accesstoken appid event_name
                                        event_message timestamp w)))) <= 3)%nat
      /\ (List.length (filter (has_field "name")
                         (calls (snd (event baseurl accesstoken appid event_name
                                        event_message timestamp w)))) <= 2)%nat
      /\ (List.length (filter (has_field "message")
                         (calls (snd (event baseurl accesstoken appid event_name
                                        event_message timestamp w)))) <= 2)%nat)
  /\ (forall rec,
        fst (event baseurl accesstoken appid event_name event_message timestamp w)
        = Ok rec ->
        result rec = true ->
        comment rec = CommentStr ("Sent event: " ++ event_name)
        /\ existsb (has_field "message")
             (calls (snd (event baseurl accesstoken appid event_name
                            event_message timestamp w))) = true).
Proof.
  enter_event. walk.
  all: split; [intros e' [= <-]; intro; discriminate |].
  all: split; [vm_compute; lia |].
  all: intros rec [= <-]; cbn; intros [=]; split; reflexivity.
Qed.

(** X10: [event] never lets an [AttributeError] through: whatever it raises
    to its caller is another exception. *)
Theorem event_never_raises_AttributeError
    baseurl accesstoken appid event_name event_message timestamp w msg :
  fst (event baseurl accesstoken appid event_name event_message timestamp w)
  <> Raise (AttributeError msg).
Proof.
  intros E.
  destruct (event_every_run baseurl accesstoken appid event_name event_message
              timestamp w) as (Hu & _).
  exact (Hu _ E msg eq_refl).
Qed.

(** X11: one call of [event] sends between one and seven requests, of which
    at most three logins, two event creations and two data pushes. *)
Theorem event_request_budget
    baseurl accesstoken appid event_name event_message timestamp w :
  (1 <= List.length (calls (snd (event baseurl accesstoken appid event_name
                                   event_message timestamp w))) <= 7)%nat
  /\ (List.length (filter (has_field "accessToken")
                     (calls (snd (event baseurl accesstoken appid event_name
                                    event_message timestamp w)))) <= 3)%nat
  /\ (List.length (filter (has_field "name")
                     (calls (snd (event baseurl accesstoken appid event_name
                                    event_message timestamp w)))) <= 2)%nat
  /\ (List.length (filter (has_field "message")
                     (calls (snd (event baseurl accesstoken appid event_name
                                    event_message timestamp w)))) <= 2)%nat.
Proof.
  apply (event_every_run baseurl accesstoken appid event_name event_message
           timestamp w).
Qed.

(** X12: a record with [result] true always carries the comment
    ["Sent event: " + event_name], and is only returned after a data push
    has been sent. *)
Theorem event_success_means_pushed
    baseurl accesstoken appid event_name event_message timestamp w rec st :
  event baseurl accesstoken appid event_name event_message timestamp w = (Ok rec, st) ->
  result rec = true ->
  comment rec = CommentStr ("Sent event: " ++ event_name)
  /\ existsb (has_field "message") (calls st) = true.
Proof.
  intros E R.
  destruct (event_every_run baseurl accesstoken appid event_name event_message
              timestamp w) as (_ & _ & H).
  rewrite E in H. exact (H rec eq_refl R).
Qed.

(** X13: a timestamp given by the caller is sent as it is: every request
    that carries a [timestamp] field carries the caller's value, and once
    login and event creation have succeeded the third request is the data
    push with that value. *)
Theorem event_timestamp_given
    baseurl accesstoken appid event_name event_message t w :
  Forall (fun rq => forall v, dict_get "timestamp" (req_data rq) = Some v -> v = t)
         (calls (snd (event baseurl accesstoken appid event_name event_message
                        (Some t) w)))
  /\ forall token w1 r2 id w2,
       login_granted requests_post json_loads accesstoken
         (login_url baseurl appid) w token w1 ->
       answers requests_post
         (eventpush_request event_name token (events_url baseurl appid)) w1 r2 w2 ->
       status_code r2 = 409 \/ status_code r2 = 200 ->
       reply_field "id" r2 = Some id ->
       exists rq,
         nth_error (calls (snd (event baseurl accesstoken appid event_name
                                  event_message (Some t) w))) 2 = Some rq
         /\ dict_get "timestamp" (req_data rq) = Some t.
Proof.
  split.
  - apply (event_timestamps baseurl accesstoken appid event_name event_message
             (Some t)).
  - intros token w1 r2 id w2 H1 H2 S2 F2.
    pose proof (event_reaches_push baseurl accesstoken appid event_name
                 event_message (Some t) _ _ _ _ _ _ H1 H2 S2 F2) as H.
    destruct (calls _) as [| a [| b [| c l]]]; try discriminate H.
    injection H as -> -> ->.
    eexists; split; reflexivity.
Qed.

(** X14: each helper sends exactly one request on every path, the raising
    ones included, and leaves the record [event] is building untouched. *)
Theorem helpers_send_one_request :
  (forall accesstoken url st o st',
     _login accesstoken url st = (o, st') ->
     calls st' = (calls st ++ [login_request accesstoken url])%list
     /\ ret st' = ret st)
  /\ (forall name token url st o st',
        _eventpush name token url st = (o, st') ->
        calls st' = (calls st ++ [eventpush_request name token url])%list
        /\ ret st' = ret st)
  /\ (forall message timestamp token url st o st',
        _eventdatapush message timestamp token url st = (o, st') ->
        calls st' = (calls st ++ [eventdatapush_request message timestamp token url])%list
        /\ ret st' = ret st).
Proof.
  repeat split.
  all: match goal with
       | E : _ = (_, _) |- _ =>
           first [ destruct (_login_sends _ _ _ _ _ E) as [w' ->]
                 | destruct (_eventpush_sends _ _ _ _ _ _ E) as [w' ->]
                 | destruct (_eventdatapush_sends _ _ _ _ _ _ _ E) as [w' ->] ]
       end; reflexivity.
Qed.

(** ** A server that behaves *)

Section Behaved.

Hypothesis Hanswers : never_raises requests_post.
Hypothesis Htokens : tokens_supplied requests_post json_loads.
Hypothesis Hids : ids_supplied requests_post json_loads.

Lemma _login_settles accesstoken url :
  settles (_login accesstoken url) (login_request accesstoken url).
Proof.
  intros st o st'.
  destruct (Hanswers (login_request accesstoken url) (world st)) as (r & w' & Hp).
  destruct (Z.eq_dec (status_code r) 200) as [Hs | Hs].
  - destruct (reply_field "token" r) as [token |] eqn:Hf;
      [| exfalso; exact (Htokens _ _ _ _ _ Hp Hs Hf)].
    rewrite (_login_ok _ _ _ _ _ _ Hp Hs Hf). intros [= <- <-].
    eexists; split; [reflexivity | discriminate].
  - rewrite (_login_refused _ _ _ _ _ Hp Hs). intros [= <- <-].
    eexists; split; [reflexivity | intros e [= <-]; eauto].
Qed.

Lemma _eventpush_settles name token url :
  settles (_eventpush name token url) (eventpush_request name token url).
Proof.
  intros st o st'.
  destruct (Hanswers (eventpush_request name token url) (world st))
    as (r & w' & Hp).
  destruct (Z.eq_dec (status_code r) 409) as [H409 | H409];
    [| destruct (Z.eq_dec (status_code r) 200) as [H200 | H200]].
  3: { rewrite (_eventpush_error _ _ _ _ _ _ Hp H409 H200). intros [= <- <-].
       eexists; split; [reflexivity | discriminate]. }
  all: assert (Hs : status_code r = 409 \/ status_code r = 200) by auto;
    destruct (reply_field "id" r) as [id |] eqn:Hf;
      [| exfalso; exact (Hids _ _ _ _ _ _ Hp Hs Hf)];
    rewrite (_eventpush_ok _ _ _ _ _ _ _ Hp Hs Hf); intros [= <- <-];
    eexists; split; [reflexivity | discriminate].
Qed.

Lemma _eventdatapush_settles message timestamp token url :
  settles (_eventdatapush message timestamp token url)
          (eventdatapush_request message timestamp token url).
Proof.
  intros st o st'.
  destruct (Hanswers (eventdatapush_request message timestamp token url) (world st))
    as (r & w' & Hp).
  destruct (Z.eq_dec (status_code r) 200) as [Hs | Hs].
  - rewrite (_eventdatapush_ok _ _ _ _ _ _ _ Hp Hs). intros [= <- <-].
    eexists; split; [reflexivity | discriminate].
  - rewrite (_eventdatapush_error _ _ _ _ _ _ _ Hp Hs). intros [= <- <-].
    eexists; split; [reflexivity | discriminate].
Qed.

Ltac settle_call m st lem :=
  let o := fresh "o" in
  let st1 := fresh "st" in
  let E := fresh "E" in
  let w := fresh "w" in
  let Q := fresh "Q" in
  let msg := fresh "msg" in
  destruct (m st) as [o st1] eqn:E;
  destruct (lem _ _ _ E) as (w & -> & Q);
  destruct o as [? | ?];
  [ rewrite (bind_Ok _ _ _ _ _ E)
  | destruct (Q _ eq_refl) as [msg ->]; rewrite (bind_Raise _ _ _ _ _ E) ];
  clear E Q.

Ltac settle :=
  repeat (next_step; rewrite ?bind_assoc;
          match goal with
          | |- context [bind _ (_login ?a ?u) ?k ?st] =>
              settle_call (_login a u) st (_login_settles a u)
          | |- context [bind _ (_eventpush ?n ?t ?u) ?k ?st] =>
              settle_call (_eventpush n t u) st (_eventpush_settles n t u)
          | |- context [bind _ (_eventdatapush ?m ?ts ?t ?u) ?k ?st] =>
              settle_call (_eventdatapush m ts t u) st (_eventdatapush_settles m ts t u)
          | p : (_ * _)%type |- _ => destruct p
          | err : option Response |- _ => destruct err
          | |- context [if ?x =? ?y then _ else _] => destruct (x =? y) eqn:?
          | |- context [negb ((?x =? ?y) || false)] => destruct (x =? y) eqn:?
          end);
  next_step; finish_run.


End Behaved.

End Properties.

(** * The model at work on a scripted server *)

(** C1 (the code departs from it): the event creation is answered 401, the
    new login succeeds and the second creation is answered 200 with an id.
    [event] has then made two logins and two creations, but it stops there:
    the status test after the retry reads [status_code] of [None], the
    [AttributeError] is caught, and the record reports a failure; no data is
    pushed and the server's last answer is never asked for. *)
Theorem event_create_retry_reports_failure :
  fst (Demo.run None Demo.create_retried)
  = Ok {| name := "Software updates"; changes := []; result := false;
          comment := CommentExc "'NoneType' object has no attribute 'status_code'" |}
  /\ calls (snd (Demo.run None Demo.create_retried))
     = [Demo.login; Demo.create "t1"; Demo.login; Demo.create "t2"]
  /\ world (snd (Demo.run None Demo.create_retried)) = [Demo.reply 200 ""].
Proof. vm_compute. repeat split; reflexivity. Qed.

(** C2 (the code departs from it): login and event creation succeed, the data
    push is answered 401 both at first and after the new login, so no data
    push ever gets a 200; the record nevertheless reports success. *)
Theorem event_datapush_unauthorized_twice_reports_success :
  fst (Demo.run None Demo.push_unauthorized_twice)
  = Ok {| name := "Software updates"; changes := []; result := true;
          comment := CommentStr "Sent event: Software updates" |}
  /\ calls (snd (Demo.run None Demo.push_unauthorized_twice))
     = [Demo.login; Demo.create "t1"; Demo.push "t1" "42" 0;
        Demo.login; Demo.push "t2" "42" 0]
  /\ world (snd (Demo.run None Demo.push_unauthorized_twice)) = [].
Proof. vm_compute. repeat split; reflexivity. Qed.

(** The converse: when the retried data push is answered 200 the whole
    sequence has succeeded, and the record reports a failure, for the reason
    seen at the event creation. *)
Example event_datapush_retry_reports_failure :
  fst (Demo.run None [Demo.token_reply "t1"; Demo.reply 200 (Demo.obj1 "id" "42");
                      Demo.reply 401 "expired"; Demo.token_reply "t2";
                      Demo.reply 200 ""])
  = Ok {| name := "Software updates"; changes := []; result := false;
          comment := CommentExc "'NoneType' object has no attribute 'status_code'" |}.
Proof. vm_compute. reflexivity. Qed.

(** The plain success path, with and without a timestamp. *)
Example event_sent :
  Demo.run None [Demo.token_reply "t1"; Demo.reply 200 (Demo.obj1 "id" "42");
                 Demo.reply 200 ""]
  = (Ok {| name := "Software updates"; changes := []; result := true;
           comment := CommentStr "Sent event: Software updates" |},
     {| world := [];
        calls := [Demo.login; Demo.create "t1"; Demo.push "t1" "42" 0];
        ret := {| name := "Software updates"; changes := []; result := true;
                  comment := CommentStr "Sent event: Software updates" |} |}).
Proof. vm_compute. reflexivity. Qed.

Example event_sent_with_timestamp :
  calls (snd (Demo.run (Some (PyInt 1461234567))
                [Demo.token_reply "t1"; Demo.reply 200 (Demo.obj1 "id" "42");
                 Demo.reply 200 ""]))
  = [Demo.login; Demo.create "t1"; Demo.push "t1" "42" 1461234567].
Proof. vm_compute. reflexivity. Qed.

(** * The theorems at a concrete server *)

Ltac granted := eexists; split; [reflexivity | split; reflexivity].

Lemma event_login_refused_witness :
  exists rec st,
    Demo.run None [Demo.reply 403 "Forbidden"] = (Ok rec, st)
    /\ result rec = false
    /\ comment_str (comment rec) = "Forbidden"
    /\ calls st = [Demo.login].
Proof.
  apply (event_login_refused Demo.scripted_post Demo.json_loads Demo.py_repr
           Demo.baseurl Demo.accesstoken Demo.appid Demo.event_name
           Demo.event_message None
           [Demo.reply 403 "Forbidden"] {| status_code := 403; text := "Forbidden" |} []).
  - reflexivity.
  - cbn; lia.
Defined.

Lemma eventpush_conflict_is_success_witness :
  firstn 3 (calls (snd (Demo.run None
                          [Demo.token_reply "t1"; Demo.reply 409 (Demo.obj1 "id" "42");
                           Demo.reply 200 ""])))
  = [Demo.login; Demo.create "t1"; Demo.push "t1" "42" 0].
Proof.
  apply (eventpush_conflict_is_success Demo.scripted_post Demo.json_loads Demo.py_repr
           Demo.baseurl Demo.accesstoken Demo.appid Demo.event_name
           Demo.event_message None
           [Demo.token_reply "t1"; Demo.reply 409 (Demo.obj1 "id" "42");
            Demo.reply 200 ""]
           (PyStr "t1")
           [Demo.reply 409 (Demo.obj1 "id" "42"); Demo.reply 200 ""]
           {| status_code := 409; text := Demo.obj1 "id" "42" |}
           (PyInt 42)
           [Demo.reply 200 ""]).
  - granted.
  - reflexivity.
  - reflexivity.
  - reflexivity.
Defined.

Lemma event_datapush_rejected_witness :
  exists rec st,
    Demo.run None [Demo.token_reply "t1"; Demo.reply 200 (Demo.obj1 "id" "42");
                   Demo.reply 500 "Internal Server Error"] = (Ok rec, st)
    /\ result rec = false
    /\ comment rec = CommentStr "Internal Server Error".
Proof.
  apply (event_datapush_rejected Demo.scripted_post Demo.json_loads Demo.py_repr
           Demo.baseurl Demo.accesstoken Demo.appid Demo.event_name
           Demo.event_message None
           [Demo.token_reply "t1"; Demo.reply 200 (Demo.obj1 "id" "42");
            Demo.reply 500 "Internal Server Error"]
           (PyStr "t1")
           [Demo.reply 200 (Demo.obj1 "id" "42"); Demo.reply 500 "Internal Server Error"]
           {| status_code := 200; text := Demo.obj1 "id" "42" |}
           (PyInt 42)
           [Demo.reply 500 "Internal Server Error"]
           {| status_code := 500; text := "Internal Server Error" |}
           []).
  - granted.
  - reflexivity.
  - right; reflexivity.
  - reflexivity.
  - reflexivity.
  - cbn; lia.
  - cbn; lia.
Defined.

Lemma event_timestamp_omitted_witness :
  exists rq,
    nth_error (calls (snd (Demo.run None
                             [Demo.token_reply "t1";
                              Demo.reply 200 (Demo.obj1 "id" "42");
                              Demo.reply 200 ""]))) 2 = Some rq
    /\ req_url rq = (Demo.app_url ++ "events/42/data/")
    /\ req_data rq = [("message", PyStr Demo.event_message);
                      ("timestamp", PyInt 0);
                      ("subject", PyStr "a")].
Proof.
  apply (proj2 (event_timestamp_omitted Demo.scripted_post Demo.json_loads Demo.py_repr
                  Demo.baseurl Demo.accesstoken Demo.appid Demo.event_name
                  Demo.event_message
                  [Demo.token_reply "t1"; Demo.reply 200 (Demo.obj1 "id" "42");
                   Demo.reply 200 ""])
           (PyStr "t1")
           [Demo.reply 200 (Demo.obj1 "id" "42"); Demo.reply 200 ""]
           {| status_code := 200; text := Demo.obj1 "id" "42" |}
           (PyInt 42)
           [Demo.reply 200 ""]).
  - granted.
  - reflexivity.
  - right; reflexivity.
  - reflexivity.
Defined.

Lemma event_urls_witness :
  nth_error (calls (snd (Demo.run (Some (PyInt 1461234567))
                           [Demo.token_reply "t1";
                            Demo.reply 200 (Demo.obj1 "id" "42");
                            Demo.reply 200 ""]))) 2
  = Some (Demo.push "t1" "42" 1461234567).
Proof.
  apply (proj2 (proj2 (event_urls Demo.scripted_post Demo.json_loads Demo.py_repr
                         Demo.baseurl Demo.accesstoken Demo.appid Demo.event_name
                         Demo.event_message (Some (PyInt 1461234567))
                         [Demo.token_reply "t1"; Demo.reply 200 (Demo.obj1 "id" "42");
                          Demo.reply 200 ""]))
           (PyStr "t1")
           [Demo.reply 200 (Demo.obj1 "id" "42"); Demo.reply 200 ""]
           {| status_code := 200; text := Demo.obj1 "id" "42" |}
           (PyInt 42)
           [Demo.reply 200 ""]).
  - granted.
  - reflexivity.
  - right; reflexivity.
  - reflexivity.
Defined.

Lemma event_datapush_retried_once_witness :
  calls (snd (Demo.run None
                [Demo.token_reply "t1"; Demo.reply 200 (Demo.obj1 "id" "42");
                 Demo.reply 401 "expired"; Demo.token_reply "t2";
                 Demo.reply 401 "expired"; Demo.reply 200 ""]))
  = [Demo.login; Demo.create "t1"; Demo.push "t1" "42" 0;
     Demo.login; Demo.push "t2" "42" 0].
Proof.
  apply (proj2 (event_datapush_retried_once
                  Demo.scripted_post Demo.json_loads Demo.py_repr
                  Demo.baseurl Demo.accesstoken Demo.appid Demo.event_name
                  Demo.event_message None
                  [Demo.token_reply "t1"; Demo.reply 200 (Demo.obj1 "id" "42");
                   Demo.reply 401 "expired"; Demo.token_reply "t2";
                   Demo.reply 401 "expired"; Demo.reply 200 ""]
                  (PyStr "t1")
                  [Demo.reply 200 (Demo.obj1 "id" "42"); Demo.reply 401 "expired";
                   Demo.token_reply "t2"; Demo.reply 401 "expired"; Demo.reply 200 ""]
                  {| status_code := 200; text := Demo.obj1 "id" "42" |}
                  (PyInt 42)
                  [Demo.reply 401 "expired"; Demo.token_reply "t2";
                   Demo.reply 401 "expired"; Demo.reply 200 ""]
                  {| status_code := 401; text := "expired" |}
                  [Demo.token_reply "t2"; Demo.reply 401 "expired"; Demo.reply 200 ""]
                  ltac:(granted) eq_refl (or_intror eq_refl) eq_refl eq_refl eq_refl)
           (PyStr "t2")
           [Demo.reply 401 "expired"; Demo.reply 200 ""]).
  granted.
Defined.

Lemma event_create_unauthorized_twice_witness :
  firstn 5 (calls (snd (Demo.run None
                          [Demo.token_reply "t1"; Demo.reply 401 "expired";
                           Demo.token_reply "t2"; Demo.reply 401 "expired";
                           Demo.reply 200 ""])))
  = [Demo.login; Demo.create "t1"; Demo.login; Demo.create "t2";
     Demo.push "t2" "None" 0]
  /\ fst (Demo.run None
            [Demo.token_reply "t1"; Demo.reply 401 "expired";
             Demo.token_reply "t2"; Demo.reply 401 "expired"; Demo.reply 200 ""])
     = Ok {| name := "Software updates"; changes := []; result := true;
             comment := CommentStr "Sent event: Software updates" |}.
Proof.
  destruct (event_create_unauthorized_twice
              Demo.scripted_post Demo.json_loads Demo.py_repr
              Demo.baseurl Demo.accesstoken Demo.appid Demo.event_name
              Demo.event_message None
              [Demo.token_reply "t1"; Demo.reply 401 "expired";
               Demo.token_reply "t2"; Demo.reply 401 "expired"; Demo.reply 200 ""]
              (PyStr "t1")
              [Demo.reply 401 "expired"; Demo.token_reply "t2";
               Demo.reply 401 "expired"; Demo.reply 200 ""]
              {| status_code := 401; text := "expired" |}
              [Demo.token_reply "t2"; Demo.reply 401 "expired"; Demo.reply 200 ""]
              (PyStr "t2")
              [Demo.reply 401 "expired"; Demo.reply 200 ""]
              {| status_code := 401; text := "expired" |}
              [Demo.reply 200 ""]
              ltac:(granted) eq_refl eq_refl ltac:(granted) eq_refl eq_refl)
    as [Hcalls Hresult].
  split.
  - exact Hcalls.
  - exact (Hresult {| status_code := 200; text := "" |} [] eq_refl eq_refl).
Defined.

Lemma event_name_and_changes_witness :
  exists rec st,
    Demo.run None [Demo.token_reply "t1"; Demo.reply 200 (Demo.obj1 "id" "42");
                   Demo.reply 200 ""] = (Ok rec, st)
    /\ name rec = Demo.event_name
    /\ changes rec = [].
Proof.
  exists {| name := "Software updates"; changes := []; result := true;
            comment := CommentStr "Sent event: Software updates" |}.
  exists {| world := [];
            calls := [Demo.login; Demo.create "t1"; Demo.push "t1" "42" 0];
            ret := {| name := "Software updates"; changes := []; result := true;
                      comment := CommentStr "Sent event: Software updates" |} |}.
  split; [reflexivity |].
  apply (event_name_and_changes Demo.scripted_post Demo.json_loads Demo.py_repr
           Demo.baseurl Demo.accesstoken Demo.appid Demo.event_name
           Demo.event_message None
           [Demo.token_reply "t1"; Demo.reply 200 (Demo.obj1 "id" "42");
            Demo.reply 200 ""]
           _
           {| world := [];
              calls := [Demo.login; Demo.create "t1"; Demo.push "t1" "42" 0];
              ret := {| name := "Software updates"; changes := []; result := true;
                        comment := CommentStr "Sent event: Software updates" |} |}).
  reflexivity.
Defined.

(** * Further runs on the scripted server *)

Lemma event_sent_ok_witness :
  fst (Demo.run None
          [Demo.token_reply "t1"; Demo.reply 200 (Demo.obj1 "id" "42"); Demo.reply 200 ""])
  = Ok {| name := "Software updates"; changes := []; result := true;
          comment := CommentStr "Sent event: Software updates" |}
  /\ calls (snd (Demo.run None
          [Demo.token_reply "t1"; Demo.reply 200 (Demo.obj1 "id" "42"); Demo.reply 200 ""]))
     = [Demo.login; Demo.create "t1"; Demo.push "t1" "42" 0].
Proof.
  apply (event_sent_ok Demo.scripted_post Demo.json_loads Demo.py_repr
           Demo.baseurl Demo.accesstoken Demo.appid Demo.event_name
           Demo.event_message None
           [Demo.token_reply "t1"; Demo.reply 200 (Demo.obj1 "id" "42"); Demo.reply 200 ""]
           (PyStr "t1")
           [Demo.reply 200 (Demo.obj1 "id" "42"); Demo.reply 200 ""]
           {| status_code := 200; text := (Demo.obj1 "id" "42") |}
           (PyInt 42)
           [Demo.reply 200 ""]
           {| status_code := 200; text := "" |}
           []).
  - granted.
  - reflexivity.
  - right; reflexivity.
  - reflexivity.
  - reflexivity.
  - reflexivity.
Defined.

Lemma event_create_rejected_witness :
  fst (Demo.run None
          [Demo.token_reply "t1"; Demo.reply 201 (Demo.obj1 "id" "42")])
  = Ok {| name := "Software updates"; changes := []; result := false;
          comment := CommentStr (Demo.obj1 "id" "42") |}
  /\ calls (snd (Demo.run None
          [Demo.token_reply "t1"; Demo.reply 201 (Demo.obj1 "id" "42")]))
     = [Demo.login; Demo.create "t1"].
Proof.
  apply (event_create_rejected Demo.scripted_post Demo.json_loads Demo.py_repr
           Demo.baseurl Demo.accesstoken Demo.appid Demo.event_name
           Demo.event_message None
           [Demo.token_reply "t1"; Demo.reply 201 (Demo.obj1 "id" "42")]
           (PyStr "t1")
           [Demo.reply 201 (Demo.obj1 "id" "42")]
           {| status_code := 201; text := (Demo.obj1 "id" "42") |}
           []).
  - granted.
  - reflexivity.
  - cbn; lia.
  - cbn; lia.
  - cbn; lia.
Defined.

Lemma event_create_retry_rejected_witness :
  fst (Demo.run None
          [Demo.token_reply "t1"; Demo.reply 401 "expired"; Demo.token_reply "t2"; Demo.reply 500 "Internal Server Error"])
  = Ok {| name := "Software updates"; changes := []; result := false;
          comment := CommentStr "Internal Server Error" |}
  /\ calls (snd (Demo.run None
          [Demo.token_reply "t1"; Demo.reply 401 "expired"; Demo.token_reply "t2"; Demo.reply 500 "Internal Server Error"]))
     = [Demo.login; Demo.create "t1"; Demo.login; Demo.create "t2"].
Proof.
  apply (event_create_retry_rejected Demo.scripted_post Demo.json_loads Demo.py_repr
           Demo.baseurl Demo.accesstoken Demo.appid Demo.event_name
           Demo.event_message None
           [Demo.token_reply "t1"; Demo.reply 401 "expired"; Demo.token_reply "t2"; Demo.reply 500 "Internal Server Error"]
           (PyStr "t1")
           [Demo.reply 401 "expired"; Demo.token_reply "t2"; Demo.reply 500 "Internal Server Error"]
           {| status_code := 401; text := "expired" |}
           [Demo.token_reply "t2"; Demo.reply 500 "Internal Server Error"]
           (PyStr "t2")
           [Demo.reply 500 "Internal Server Error"]
           {| status_code := 500; text := "Internal Server Error" |}
           []).
  - granted.
  - reflexivity.
  - reflexivity.
  - granted.
  - reflexivity.
  - cbn; lia.
  - cbn; lia.
  - cbn; lia.
Defined.

Lemma event_create_relogin_refused_witness :
  fst (Demo.run None
          [Demo.token_reply "t1"; Demo.reply 401 "expired"; Demo.reply 403 "Forbidden"])
  = Ok {| name := "Software updates"; changes := []; result := false;
          comment := CommentExc "Forbidden" |}
  /\ calls (snd (Demo.run None
          [Demo.token_reply "t1"; Demo.reply 401 "expired"; Demo.reply 403 "Forbidden"]))
     = [Demo.login; Demo.create "t1"; Demo.login].
Proof.
  apply (event_create_relogin_refused Demo.scripted_post Demo.json_loads Demo.py_repr
           Demo.baseurl Demo.accesstoken Demo.appid Demo.event_name
           Demo.event_message None
           [Demo.token_reply "t1"; Demo.reply 401 "expired"; Demo.reply 403 "Forbidden"]
           (PyStr "t1")
           [Demo.reply 401 "expired"; Demo.reply 403 "Forbidden"]
           {| status_code := 401; text := "expired" |}
           [Demo.reply 403 "Forbidden"]
           {| status_code := 403; text := "Forbidden" |}
           []).
  - granted.
  - reflexivity.
  - reflexivity.
  - reflexivity.
  - cbn; lia.
Defined.

Lemma event_datapush_retry_rejected_witness :
  fst (Demo.run None
          [Demo.token_reply "t1"; Demo.reply 200 (Demo.obj1 "id" "42"); Demo.reply 401 "expired"; Demo.token_reply "t2"; Demo.reply 500 "Internal Server Error"])
  = Ok {| name := "Software updates"; changes := []; result := false;
          comment := CommentStr "Internal Server Error" |}
  /\ calls (snd (Demo.run None
          [Demo.token_reply "t1"; Demo.reply 200 (Demo.obj1 "id" "42"); Demo.reply 401 "expired"; Demo.token_reply "t2"; Demo.reply 500 "Internal Server Error"]))
     = [Demo.login; Demo.create "t1"; Demo.push "t1" "42" 0;
        Demo.login; Demo.push "t2" "42" 0].
Proof.
  apply (event_datapush_retry_rejected Demo.scripted_post Demo.json_loads Demo.py_repr
           Demo.baseurl Demo.accesstoken Demo.appid Demo.event_name
           Demo.event_message None
           [Demo.token_reply "t1"; Demo.reply 200 (Demo.obj1 "id" "42"); Demo.reply 401 "expired"; Demo.token_reply "t2"; Demo.reply 500 "Internal Server Error"]
           (PyStr "t1")
           [Demo.reply 200 (Demo.obj1 "id" "42"); Demo.reply 401 "expired"; Demo.token_reply "t2"; Demo.reply 500 "Internal Server Error"]
           {| status_code := 200; text := (Demo.obj1 "id" "42") |}
           (PyInt 42)
           [Demo.reply 401 "expired"; Demo.token_reply "t2"; Demo.reply 500 "Internal Server Error"]
           {| status_code := 401; text := "expired" |}
           [Demo.token_reply "t2"; Demo.reply 500 "Internal Server Error"]
           (PyStr "t2")
           [Demo.reply 500 "Internal Server Error"]
           {| status_code := 500; text := "Internal Server Error" |}
           []).
  - granted.
  - reflexivity.
  - right; reflexivity.
  - reflexivity.
  - reflexivity.
  - reflexivity.
  - granted.
  - reflexivity.
  - cbn; lia.
  - cbn; lia.
Defined.

Lemma event_datapush_relogin_refused_witness :
  fst (Demo.run None
          [Demo.token_reply "t1"; Demo.reply 200 (Demo.obj1 "id" "42"); Demo.reply 401 "expired"; Demo.reply 403 "Forbidden"])
  = Ok {| name := "Software updates"; changes := []; result := false;
          comment := CommentExc "Forbidden" |}
  /\ calls (snd (Demo.run None
          [Demo.token_reply "t1"; Demo.reply 200 (Demo.obj1 "id" "42"); Demo.reply 401 "expired"; Demo.reply 403 "Forbidden"]))
     = [Demo.login; Demo.create "t1"; Demo.push "t1" "42" 0; Demo.login].
Proof.
  apply (event_datapush_relogin_refused Demo.scripted_post Demo.json_loads Demo.py_repr
           Demo.baseurl Demo.accesstoken Demo.appid Demo.event_name
           Demo.event_message None
           [Demo.token_reply "t1"; Demo.reply 200 (Demo.obj1 "id" "42"); Demo.reply 401 "expired"; Demo.reply 403 "Forbidden"]
           (PyStr "t1")
           [Demo.reply 200 (Demo.obj1 "id" "42"); Demo.reply 401 "expired"; Demo.reply 403 "Forbidden"]
           {| status_code := 200; text := (Demo.obj1 "id" "42") |}
           (PyInt 42)
           [Demo.reply 401 "expired"; Demo.reply 403 "Forbidden"]
           {| status_code := 401; text := "expired" |}
           [Demo.reply 403 "Forbidden"]
           {| status_code := 403; text := "Forbidden" |}
           []).
  - granted.
  - reflexivity.
  - right; reflexivity.
  - reflexivity.
  - reflexivity.
  - reflexivity.
  - reflexivity.
  - cbn; lia.
Defined.

Lemma event_login_without_token_witness :
  exists e,
    fst (Demo.run None
          [Demo.reply 200 (Demo.obj1 "user" (Demo.quoted "salt"))]) = Raise e
    /\ uncaught e
    /\ calls (snd (Demo.run None
          [Demo.reply 200 (Demo.obj1 "user" (Demo.quoted "salt"))])) = [Demo.login].
Proof.
  apply (event_login_without_token Demo.scripted_post Demo.json_loads Demo.py_repr
           Demo.baseurl Demo.accesstoken Demo.appid Demo.event_name
           Demo.event_message None
           [Demo.reply 200 (Demo.obj1 "user" (Demo.quoted "salt"))]
           {| status_code := 200; text := (Demo.obj1 "user" (Demo.quoted "salt")) |}
           []).
  - reflexivity.
  - reflexivity.
  - reflexivity.
Defined.

Lemma event_create_without_id_witness :
  exists e,
    fst (Demo.run None
          [Demo.token_reply "t1"; Demo.reply 200 (Demo.obj1 "name" (Demo.quoted "Software updates"))]) = Raise e
    /\ uncaught e
    /\ calls (snd (Demo.run None
          [Demo.token_reply "t1"; Demo.reply 200 (Demo.obj1 "name" (Demo.quoted "Software updates"))])) = [Demo.login; Demo.create "t1"].
Proof.
  apply (event_create_without_id Demo.scripted_post Demo.json_loads Demo.py_repr
           Demo.baseurl Demo.accesstoken Demo.appid Demo.event_name
           Demo.event_message None
           [Demo.token_reply "t1"; Demo.reply 200 (Demo.obj1 "name" (Demo.quoted "Software updates"))]
           (PyStr "t1")
           [Demo.reply 200 (Demo.obj1 "name" (Demo.quoted "Software updates"))]
           {| status_code := 200; text := (Demo.obj1 "name" (Demo.quoted "Software updates")) |}
           []).
  - granted.
  - reflexivity.
  - right; reflexivity.
  - reflexivity.
Defined.

Lemma event_login_network_failure_witness :
  fst (Demo.run None
          []) = Raise (RequestException "connection refused")
  /\ calls (snd (Demo.run None
          [])) = [Demo.login].
Proof.
  apply (event_login_network_failure Demo.scripted_post Demo.json_loads Demo.py_repr
           Demo.baseurl Demo.accesstoken Demo.appid Demo.event_name
           Demo.event_message None
           []
           (RequestException "connection refused")
           []).
  - reflexivity.
  - intros msg; discriminate.
Defined.

Lemma event_success_means_pushed_witness :
  exists rec st,
    Demo.run None [Demo.token_reply "t1"; Demo.reply 409 (Demo.obj1 "id" "42");
                   Demo.reply 200 ""] = (Ok rec, st)
    /\ result rec = true
    /\ comment rec = CommentStr "Sent event: Software updates"
    /\ existsb (has_field "message") (calls st) = true.
Proof.
  exists {| name := "Software updates"; changes := []; result := true;
            comment := CommentStr "Sent event: Software updates" |}.
  exists {| world := [];
            calls := [Demo.login; Demo.create "t1"; Demo.push "t1" "42" 0];
            ret := {| name := "Software updates"; changes := []; result := true;
                      comment := CommentStr "Sent event: Software updates" |} |}.
  split; [reflexivity | split; [reflexivity |]].
  apply (event_success_means_pushed Demo.scripted_post Demo.json_loads Demo.py_repr
           Demo.baseurl Demo.accesstoken Demo.appid Demo.event_name
           Demo.event_message None
           [Demo.token_reply "t1"; Demo.reply 409 (Demo.obj1 "id" "42");
            Demo.reply 200 ""]
           _
           {| world := [];
              calls := [Demo.login; Demo.create "t1"; Demo.push "t1" "42" 0];
              ret := {| name := "Software updates"; changes := []; result := true;
                        comment := CommentStr "Sent event: Software updates" |} |}).
  - reflexivity.
  - reflexivity.
Defined.

Lemma event_timestamp_given_witness :
  exists rq,
    nth_error (calls (snd (Demo.run (Some (PyInt 1461234567))
                             [Demo.token_reply "t1";
                              Demo.reply 200 (Demo.obj1 "id" "42");
                              Demo.reply 200 ""]))) 2 = Some rq
    /\ dict_get "timestamp" (req_data rq) = Some (PyInt 1461234567).
Proof.
  apply (proj2 (event_timestamp_given Demo.scripted_post Demo.json_loads Demo.py_repr
                  Demo.baseurl Demo.accesstoken Demo.appid Demo.event_name
                  Demo.event_message (PyInt 1461234567)
                  [Demo.token_reply "t1"; Demo.reply 200 (Demo.obj1 "id" "42");
                   Demo.reply 200 ""])
           (PyStr "t1")
           [Demo.reply 200 (Demo.obj1 "id" "42"); Demo.reply 200 ""]
           {| status_code := 200; text := Demo.obj1 "id" "42" |}
           (PyInt 42)
           [Demo.reply 200 ""]).
  - granted.
  - reflexivity.
  - right; reflexivity.
  - reflexivity.
Defined.

